(** * blockchain_sim: a single-node UTXO ledger with proof-of-work mining

    Shallow embedding of [blockchain_sim.py] and the properties of its ledger
    state machine.

    Conventions of the embedding.
    - Python [str] is [string]; the texts the program handles are ASCII
      (hex digests, ISO timestamps, JSON produced with [ensure_ascii]), so
      [.encode()] is the identity on them.
    - Python numbers used as amounts and timestamps are exact rationals [Q];
      the rounding error of binary floating point is not modelled, and
      [round(x, 4)] is rounding half to even at four decimals.
    - a Python [dict] is an association list in insertion order, because
      [create_tx] and [export_data] iterate over the UTXO set in that order.
    - what [print] writes to standard output is left out.
    - the [while True] loop of [mine_block] takes a bound on its number of
      iterations and returns [None] when the bound is exhausted. *)

From Stdlib Require Import List String Ascii ZArith QArith Qround Bool Lia Lqa DecimalString.
From Stdlib Require Import Permutation SetoidList.
Import ListNotations.

Local Open Scope string_scope.
Local Open Scope Z_scope.

(** ** Text helpers *)

(** The double-quote character. *)
Definition dquote : ascii := "034"%char.

Definition backslash : ascii := "092"%char.

Definition str1 (c : ascii) : string := String c EmptyString.

(** [str(n)] for a Python [int]. *)
Definition str_int (n : Z) : string := NilZero.string_of_int (Z.to_int n).

(** [c * n] for a one-character string [c] and an [int] [n] (empty when
    [n <= 0]). *)
Fixpoint str_repeat (c : ascii) (n : nat) : string :=
  match n with
  | O => EmptyString
  | S k => String c (str_repeat c k)
  end.

Definition str_mul (c : ascii) (n : Z) : string := str_repeat c (Z.to_nat n).

(** [s.startswith(p)] *)
Definition startswith (s p : string) : bool := String.prefix p s.

(** [sep.join(l)] *)
Fixpoint join (sep : string) (l : list string) : string :=
  match l with
  | [] => EmptyString
  | [x] => x
  | x :: rest => x ++ sep ++ join sep rest
  end.

Definition hex_digit (n : Z) : ascii :=
  match n with
  | 0 => "0" | 1 => "1" | 2 => "2" | 3 => "3" | 4 => "4" | 5 => "5"
  | 6 => "6" | 7 => "7" | 8 => "8" | 9 => "9" | 10 => "a" | 11 => "b"
  | 12 => "c" | 13 => "d" | 14 => "e" | _ => "f"
  end%char.

(** ** hashlib.sha256 (FIPS 180-4), on 32-bit words held in [Z] *)

Module SHA256.

Definition mask32 (x : Z) : Z := Z.land x 0xffffffff.

Definition add32 (a b : Z) : Z := mask32 (a + b).

Definition rotr (n x : Z) : Z :=
  mask32 (Z.lor (Z.shiftr x n) (Z.shiftl x (32 - n))).

Definition Ch (x y z : Z) : Z :=
  Z.lxor (Z.land x y) (Z.land (Z.lxor x 0xffffffff) z).

Definition Maj (x y z : Z) : Z :=
  Z.lxor (Z.lxor (Z.land x y) (Z.land x z)) (Z.land y z).

Definition Sigma0 (x : Z) : Z := Z.lxor (Z.lxor (rotr 2 x) (rotr 13 x)) (rotr 22 x).
Definition Sigma1 (x : Z) : Z := Z.lxor (Z.lxor (rotr 6 x) (rotr 11 x)) (rotr 25 x).
Definition sigma0 (x : Z) : Z := Z.lxor (Z.lxor (rotr 7 x) (rotr 18 x)) (Z.shiftr x 3).
Definition sigma1 (x : Z) : Z := Z.lxor (Z.lxor (rotr 17 x) (rotr 19 x)) (Z.shiftr x 10).

(** The first [n] primes, by trial division from [k] on, with [fuel]
    candidates to try. *)
Fixpoint primes_from (fuel n : nat) (k : Z) (found : list Z) : list Z :=
  match fuel, n with
  | S fuel', S n' =>
      if forallb (fun p => negb (k mod p =? 0)) found
      then primes_from fuel' n' (k + 1) (found ++ [k])%list
      else primes_from fuel' n (k + 1) found
  | _, _ => found
  end.

Definition first_primes (n : nat) : list Z := primes_from 400 n 2 [].

(** The integer cube root of [x], built from bit [bits - 1] down. *)
Fixpoint cube_root (bits : nat) (x r : Z) : Z :=
  match bits with
  | O => r
  | S b =>
      let r' := r + Z.shiftl 1 (Z.of_nat b) in
      cube_root b x (if r' * r' * r' <=? x then r' else r)
  end.

(** The round constants: the first 32 bits of the fractional parts of the
    cube roots of the first 64 primes. *)
Definition K : list Z :=
  Eval vm_compute in
    map (fun p => mask32 (cube_root 36 (Z.shiftl p 96) 0)) (first_primes 64).

(** The initial hash value: the first 32 bits of the fractional parts of the
    square roots of the first 8 primes. *)
Definition H0 : list Z :=
  Eval vm_compute in
    map (fun p => mask32 (Z.sqrt (Z.shiftl p 64))) (first_primes 8).

Definition bytes_of_string (s : string) : list Z :=
  map (fun c => Z.of_N (N_of_ascii c)) (list_ascii_of_string s).

(** Big-endian bytes of [x], [n] of them. *)
Fixpoint be_bytes (n : nat) (x : Z) : list Z :=
  match n with
  | O => []
  | S k => Z.land (Z.shiftr x (8 * Z.of_nat k)) 0xff :: be_bytes k x
  end.

(** The message, a 1 bit, zero bits up to 56 modulo 64 bytes, and the length
    in bits on 8 bytes. *)
Definition pad (msg : list Z) : list Z :=
  let len := Z.of_nat (List.length msg) in
  let zeros := Z.to_nat ((55 - len) mod 64) in
  (msg ++ [0x80] ++ repeat 0 zeros ++ be_bytes 8 (8 * len))%list.

Fixpoint words (fuel : nat) (bs : list Z) : list Z :=
  match fuel, bs with
  | S k, a :: b :: c :: d :: rest =>
      (Z.shiftl a 24 + Z.shiftl b 16 + Z.shiftl c 8 + d) :: words k rest
  | _, _ => []
  end.

Fixpoint chunks (fuel : nat) (ws : list Z) : list (list Z) :=
  match fuel, ws with
  | S k, _ :: _ => firstn 16 ws :: chunks k (skipn 16 ws)
  | _, _ => []
  end.

(** The message schedule, most recent word first: [rev_w] holds
    [W(t-1), W(t-2), ...]. *)
Fixpoint schedule (n : nat) (rev_w : list Z) : list Z :=
  match n with
  | O => rev_w
  | S k =>
      let w := add32 (add32 (sigma1 (nth 1 rev_w 0)) (nth 6 rev_w 0))
                     (add32 (sigma0 (nth 14 rev_w 0)) (nth 15 rev_w 0)) in
      schedule k (w :: rev_w)
  end.

Record regs := Regs { ra : Z; rb : Z; rc : Z; rd : Z; re : Z; rf : Z; rg : Z; rh : Z }.

Definition round (r : regs) (kw : Z * Z) : regs :=
  let t1 := add32 (add32 (add32 (rh r) (Sigma1 (re r)))
                         (add32 (Ch (re r) (rf r) (rg r)) (fst kw))) (snd kw) in
  let t2 := add32 (Sigma0 (ra r)) (Maj (ra r) (rb r) (rc r)) in
  Regs (add32 t1 t2) (ra r) (rb r) (rc r) (add32 (rd r) t1) (re r) (rf r) (rg r).

Definition compress (h : regs) (block : list Z) : regs :=
  let w := rev (schedule 48 (rev block)) in
  let r := fold_left round (combine K w) h in
  Regs (add32 (ra h) (ra r)) (add32 (rb h) (rb r)) (add32 (rc h) (rc r))
       (add32 (rd h) (rd r)) (add32 (re h) (re r)) (add32 (rf h) (rf r))
       (add32 (rg h) (rg r)) (add32 (rh h) (rh r)).

Definition init : regs :=
  Regs (nth 0 H0 0) (nth 1 H0 0) (nth 2 H0 0) (nth 3 H0 0)
       (nth 4 H0 0) (nth 5 H0 0) (nth 6 H0 0) (nth 7 H0 0).

Fixpoint hex_of (digits : nat) (x : Z) : string :=
  match digits with
  | O => EmptyString
  | S k => String (hex_digit (Z.land (Z.shiftr x (4 * Z.of_nat k)) 0xf)) (hex_of k x)
  end.

Definition digest_words (r : regs) : list Z :=
  [ra r; rb r; rc r; rd r; re r; rf r; rg r; rh r].

(** [hashlib.sha256(s.encode()).hexdigest()] *)
Definition hexdigest (s : string) : string :=
  let bs := pad (bytes_of_string s) in
  let ws := words (List.length bs) bs in
  let r := fold_left compress (chunks (List.length ws) ws) init in
  String.concat EmptyString (map (hex_of 8) (digest_words r)).

End SHA256.

(** [hashlib.sha256(s.encode()).hexdigest()] as the program calls it. *)
Definition sha256_hexdigest (s : string) : string := SHA256.hexdigest s.

Arguments sha256_hexdigest : simpl never.

(** ** What the program takes from its environment

    Printing a float ([float.__repr__], used by [json] and [csv]) and the
    optional [ecdsa] package: whether it could be imported, and its signing
    function on a hexadecimal private key and a message. *)
Class Runtime := {
  repr_float : Q -> string;
  USE_ECDSA : bool;
  ecdsa_sign : string -> string -> string
}.

(** ** A Python dict: association list in insertion order *)

Section Dict.
Context {K V : Type} (eqb : K -> K -> bool).

(** [d.get(k)] *)
Fixpoint dict_get (k : K) (d : list (K * V)) : option V :=
  match d with
  | [] => None
  | (k', v) :: rest => if eqb k k' then Some v else dict_get k rest
  end.

(** [k in d] *)
Definition dict_mem (k : K) (d : list (K * V)) : bool :=
  match dict_get k d with Some _ => true | None => false end.

(** [del d[k]] *)
Fixpoint dict_del (k : K) (d : list (K * V)) : list (K * V) :=
  match d with
  | [] => []
  | (k', v) :: rest =>
      if eqb k k' then dict_del k rest else (k', v) :: dict_del k rest
  end.

Fixpoint dict_replace (k : K) (v : V) (d : list (K * V)) : list (K * V) :=
  match d with
  | [] => []
  | (k', v') :: rest =>
      if eqb k k' then (k', v) :: dict_replace k v rest
      else (k', v') :: dict_replace k v rest
  end.

(** [d[k] = v]: an existing key keeps its place, a new one goes last. *)
Definition dict_set (k : K) (v : V) (d : list (K * V)) : list (K * V) :=
  if dict_mem k d then dict_replace k v d else (d ++ [(k, v)])%list.

End Dict.

(** ** json.dumps *)

#[local] Unset Elimination Schemes.

Inductive json :=
| JStr (s : string)
| JInt (z : Z)
| JFloat (q : Q)
| JArr (items : list json)
| JObj (fields : list (string * json)).

#[local] Set Elimination Schemes.

(** One character of a string literal under [ensure_ascii]. *)
Definition json_escape_char (c : ascii) : string :=
  let n := Z.of_N (N_of_ascii c) in
  if Ascii.eqb c dquote then String backslash (str1 dquote)
  else if Ascii.eqb c backslash then String backslash (str1 backslash)
  else if n =? 10 then String backslash "n"
  else if n =? 13 then String backslash "r"
  else if n =? 9 then String backslash "t"
  else if n =? 8 then String backslash "b"
  else if n =? 12 then String backslash "f"
  else if (32 <=? n) && (n <=? 126) then str1 c
  else String backslash ("u" ++ SHA256.hex_of 4 n).

Fixpoint json_escape (s : string) : string :=
  match s with
  | EmptyString => EmptyString
  | String c rest => json_escape_char c ++ json_escape rest
  end.

Definition json_string (s : string) : string :=
  String dquote (json_escape s ++ str1 dquote).

Fixpoint insert_by_key (kv : string * string) (l : list (string * string))
  : list (string * string) :=
  match l with
  | [] => [kv]
  | kv' :: rest =>
      if String.ltb (fst kv) (fst kv') then kv :: l else kv' :: insert_by_key kv rest
  end.

(** Stable sort on the keys, as [sort_keys=True] orders the items of a dict. *)
Definition sort_by_key (l : list (string * string)) : list (string * string) :=
  fold_left (fun acc kv => insert_by_key kv acc) l [].

Definition newline : ascii := "010"%char.
Definition carriage_return : ascii := "013"%char.

(** The line break and indentation that [indent=n] puts before an item at
    nesting [level]; nothing when [indent] is [None]. *)
Definition newline_indent (indent : option nat) (level : nat) : string :=
  match indent with
  | None => EmptyString
  | Some n => String newline (str_repeat " " (n * level))
  end.

Definition item_separator (indent : option nat) : string :=
  match indent with None => ", " | Some _ => "," end.

Section Json.
Context {R : Runtime}.

(** [json.dumps(v, sort_keys=sort_keys, indent=indent)]; [level] is the
    current nesting depth, 0 at the top. *)
Fixpoint json_dumps_at (sort_keys : bool) (indent : option nat) (level : nat)
         (v : json) : string :=
  match v with
  | JStr s => json_string s
  | JInt z => str_int z
  | JFloat q => repr_float q
  | JArr [] => "[]"
  | JArr items =>
      "[" ++ newline_indent indent (S level)
      ++ join (item_separator indent ++ newline_indent indent (S level))
              (map (json_dumps_at sort_keys indent (S level)) items)
      ++ newline_indent indent level ++ "]"
  | JObj [] => "{}"
  | JObj fields =>
      let rendered :=
        map (fun kv => (fst kv, json_dumps_at sort_keys indent (S level) (snd kv)))
            fields in
      let ordered := if sort_keys then sort_by_key rendered else rendered in
      "{" ++ newline_indent indent (S level)
      ++ join (item_separator indent ++ newline_indent indent (S level))
              (map (fun kv => json_string (fst kv) ++ ": " ++ snd kv) ordered)
      ++ newline_indent indent level ++ "}"
  end.

Definition json_dumps (sort_keys : bool) (indent : option nat) (v : json) : string :=
  json_dumps_at sort_keys indent 0 v.
End Json.

(** ** csv.writer, default dialect *)

Fixpoint str_contains (c : ascii) (s : string) : bool :=
  match s with
  | EmptyString => false
  | String c' rest => Ascii.eqb c c' || str_contains c rest
  end.

Fixpoint csv_double_quotes (s : string) : string :=
  match s with
  | EmptyString => EmptyString
  | String c rest =>
      if Ascii.eqb c dquote then String dquote (String dquote (csv_double_quotes rest))
      else String c (csv_double_quotes rest)
  end.

(** A field is quoted when it holds the delimiter, the quote character or a
    character of the line terminator. *)
Definition csv_field (s : string) : string :=
  if str_contains "," s || str_contains dquote s
     || str_contains carriage_return s || str_contains newline s
  then String dquote (csv_double_quotes s ++ str1 dquote)
  else s.

(** [writer.writerow(fields)] *)
Definition csv_row (fields : list string) : string :=
  join "," (map csv_field fields) ++ String carriage_return (str1 newline).

(** ** Data model *)

(** A key of the UTXO set: the tuple [(txid, vout)]. *)
Definition OutputRef : Type := string * Z.

Definition ref_eqb (a b : OutputRef) : bool :=
  String.eqb (fst a) (fst b) && Z.eqb (snd a) (snd b).

Record TxInput := mkTxInput { in_txid : string; in_vout : Z }.

Record TxOutput := mkTxOutput { out_address : string; out_amount : Q }.

(** A transaction dict. [create_tx] sets every key; a dict handed to
    [add_tx] may lack ["signature"], which nothing reads. *)
Record Transaction := mkTransaction {
  tx_inputs : list TxInput;
  tx_outputs : list TxOutput;
  tx_timestamp : Q;
  tx_txid : string;
  tx_signature : option string
}.

Record UTXO := mkUTXO {
  utxo_txid : string;
  utxo_vout : Z;
  utxo_address : string;
  utxo_amount : Q
}.

Record Block := mkBlock {
  block_timestamp : string;
  block_tx : list Transaction;
  block_miner : string;
  block_nonce : Z;
  block_hash : string
}.

Definition UtxoSet : Type := list (OutputRef * UTXO).

Record Blockchain := mkBlockchain {
  chain : list Block;
  utxos : UtxoSet;
  difficulty : Z;
  mempool : list Transaction
}.

Record Wallet := mkWallet {
  private_key : string;
  public_key : string;
  address : string
}.

Definition input_ref (i : TxInput) : OutputRef := (in_txid i, in_vout i).

(** ** Serialisation of transactions and blocks *)

Definition input_to_json (i : TxInput) : json :=
  JObj [("txid", JStr (in_txid i)); ("vout", JInt (in_vout i))].

Definition output_to_json (o : TxOutput) : json :=
  JObj [("address", JStr (out_address o)); ("amount", JFloat (out_amount o))].

(** The dict [create_tx] hashes: no ["txid"] and no ["signature"] yet. *)
Definition unsigned_tx_to_json (ins : list TxInput) (outs : list TxOutput) (ts : Q)
  : json :=
  JObj [("inputs", JArr (map input_to_json ins));
        ("outputs", JArr (map output_to_json outs));
        ("timestamp", JFloat ts)].

Definition tx_to_json (tx : Transaction) : json :=
  JObj ([("inputs", JArr (map input_to_json (tx_inputs tx)));
         ("outputs", JArr (map output_to_json (tx_outputs tx)));
         ("timestamp", JFloat (tx_timestamp tx));
         ("txid", JStr (tx_txid tx))]
        ++ match tx_signature tx with
           | Some sg => [("signature", JStr sg)]
           | None => []
           end)%list.

(** The block dict before it gets its ["hash"]. *)
Definition block_fields_to_json (timestamp : string) (txs : list Transaction)
           (miner : string) (nonce : Z) : json :=
  JObj [("timestamp", JStr timestamp);
        ("tx", JArr (map tx_to_json txs));
        ("miner", JStr miner);
        ("nonce", JInt nonce)].

Definition block_to_json (b : Block) : json :=
  JObj [("timestamp", JStr (block_timestamp b));
        ("tx", JArr (map tx_to_json (block_tx b)));
        ("miner", JStr (block_miner b));
        ("nonce", JInt (block_nonce b));
        ("hash", JStr (block_hash b))].

(** ** Numbers *)

Local Open Scope Q_scope.

(** [sum(...)] of Python: from 0, left to right. *)
Definition py_sum (l : list Q) : Q := fold_left Qplus l 0.

(** Nearest integer, ties to the even one. *)
Definition round_half_even (x : Q) : Z :=
  let f := Qfloor x in
  match Qcompare (x - inject_Z f) (1 # 2) with
  | Lt => f
  | Gt => (f + 1)%Z
  | Eq => if Z.even f then f else (f + 1)%Z
  end.

(** [round(x, 4)] *)
Definition round4 (x : Q) : Q := round_half_even (x * 10000) # 10000.

(** The fee [create_tx] keeps back. *)
Definition FEE : Q := 1 # 10000.

(** ** The ledger *)

Section Ledger.
Context {R : Runtime}.

(** [Wallet.sign] *)
Definition sign (w : Wallet) (message : string) : string :=
  if USE_ECDSA then ecdsa_sign (private_key w) message
  else sha256_hexdigest (message ++ private_key w).

(** [Blockchain(difficulty)] *)
Definition new_blockchain (d : Z) : Blockchain :=
  {| chain := []; utxos := []; difficulty := d; mempool := [] |}.

Definition set_utxos (self : Blockchain) (u : UtxoSet) : Blockchain :=
  {| chain := chain self; utxos := u;
     difficulty := difficulty self; mempool := mempool self |}.

Definition genesis (self : Blockchain) (wallet : Wallet) (amount : Q) : Blockchain :=
  let txid := "genesis" ++ str_int (Z.of_nat (List.length (chain self)) + 1) in
  set_utxos self
    (dict_set ref_eqb (txid, 0%Z)
              {| utxo_txid := txid; utxo_vout := 0;
                 utxo_address := address wallet; utxo_amount := amount |}
              (utxos self)).

(** The first loop of [verify_tx]: [None] is its [return False]. *)
Fixpoint resolve_inputs (u : UtxoSet) (ins : list TxInput) (total_in : Q)
  : option Q :=
  match ins with
  | [] => Some total_in
  | i :: rest =>
      match dict_get ref_eqb (input_ref i) u with
      | None => None
      | Some utxo => resolve_inputs u rest (total_in + utxo_amount utxo)
      end
  end.

Definition total_outputs (outs : list TxOutput) : Q :=
  fold_left (fun total_out o => total_out + out_amount o) outs 0.

Definition verify_tx (self : Blockchain) (tx : Transaction) : bool :=
  match resolve_inputs (utxos self) (tx_inputs tx) 0 with
  | None => false
  | Some total_in => Qle_bool (total_outputs (tx_outputs tx)) total_in
  end.

Definition add_tx (self : Blockchain) (tx : Transaction) : bool * Blockchain :=
  if verify_tx self tx then
    (true, {| chain := chain self; utxos := utxos self;
              difficulty := difficulty self;
              mempool := (mempool self ++ [tx])%list |})
  else (false, self).

Definition spend_input (u : UtxoSet) (i : TxInput) : UtxoSet :=
  if dict_mem ref_eqb (input_ref i) u then dict_del ref_eqb (input_ref i) u else u.

(** The loop over [enumerate(tx["outputs"])], from index [idx] on. *)
Fixpoint add_outputs (txid : string) (idx : Z) (outs : list TxOutput) (u : UtxoSet)
  : UtxoSet :=
  match outs with
  | [] => u
  | o :: rest =>
      add_outputs txid (idx + 1)%Z rest
        (dict_set ref_eqb (txid, idx)
                  {| utxo_txid := txid; utxo_vout := idx;
                     utxo_address := out_address o; utxo_amount := out_amount o |}
                  u)
  end.

Definition apply_tx_utxos (u : UtxoSet) (tx : Transaction) : UtxoSet :=
  add_outputs (tx_txid tx) 0 (tx_outputs tx) (fold_left spend_input (tx_inputs tx) u).

Definition apply_tx (self : Blockchain) (tx : Transaction) : Blockchain :=
  set_utxos self (apply_tx_utxos (utxos self) tx).

(** One attempt of the proof of work on [nonce]. *)
Definition hash_try (block_json : string) (nonce : Z) : string :=
  sha256_hexdigest (block_json ++ str_int nonce).

Definition meets_target (d : Z) (h : string) : bool :=
  startswith h (str_mul "0" d).

(** The [while True] loop of [mine_block], at most [fuel] attempts. *)
Fixpoint pow_search (fuel : nat) (block_json : string) (d : Z) (nonce : Z)
  : option (Z * string) :=
  match fuel with
  | O => None
  | S k =>
      if meets_target d (hash_try block_json nonce)
      then Some (nonce, hash_try block_json nonce)
      else pow_search k block_json d (nonce + 1)%Z
  end.

(** What [mine_block] serialises once, before the loop. *)
Definition block_json_of (now : string) (txs : list Transaction) (miner : string)
  : string :=
  json_dumps true None (block_fields_to_json now txs miner 0).

(** [mine_block]; [now] is [datetime.utcnow().isoformat()]. *)
Definition mine_block (fuel : nat) (self : Blockchain) (miner_wallet : Wallet)
           (now : string) : option Blockchain :=
  let txs := mempool self in
  let block_json := block_json_of now txs (address miner_wallet) in
  match pow_search fuel block_json (difficulty self) 0 with
  | None => None
  | Some (nonce, h) =>
      let block := {| block_timestamp := now; block_tx := txs;
                      block_miner := address miner_wallet;
                      block_nonce := nonce; block_hash := h |} in
      let applied := fold_left apply_tx txs self in
      Some {| chain := (chain applied ++ [block])%list;
              utxos := utxos applied;
              difficulty := difficulty applied;
              mempool := [] |}
  end.

(** ** export_data, on a file system of named texts *)

Definition FileSystem : Type := list (string * string).

(** [open(name, "w")], [write], [close]. *)
Definition write_file (name content : string) (fs : FileSystem) : FileSystem :=
  dict_set String.eqb name content fs.

Definition read_file (name : string) (fs : FileSystem) : option string :=
  dict_get String.eqb name fs.

Definition chain_json (self : Blockchain) : string :=
  json_dumps false (Some 2%nat) (JArr (map block_to_json (chain self))).

Definition utxo_row (item : OutputRef * UTXO) : string :=
  csv_row [fst (fst item); str_int (snd (fst item));
           utxo_address (snd item); repr_float (utxo_amount (snd item))].

Definition utxos_csv (self : Blockchain) : string :=
  csv_row ["txid"; "vout"; "address"; "amount"]
  ++ String.concat EmptyString (map utxo_row (utxos self)).

Definition export_data (self : Blockchain) (fs : FileSystem)
  : Blockchain * FileSystem :=
  (self, write_file "utxos.csv" (utxos_csv self)
           (write_file "chain.json" (chain_json self) fs)).

(** ** create_tx *)

(** The scan of [create_tx] over [blockchain.utxos.items()]; [requested]
    is [sum(a for _, a in recipients)]. *)
Fixpoint select_inputs (addr : string) (requested : Q) (items : UtxoSet)
         (inputs : list TxInput) (total_in : Q) : list TxInput * Q :=
  match items with
  | [] => (inputs, total_in)
  | (_, utxo) :: rest =>
      if String.eqb (utxo_address utxo) addr then
        let inputs' :=
          (inputs ++ [{| in_txid := utxo_txid utxo; in_vout := utxo_vout utxo |}])%list in
        let total_in' := total_in + utxo_amount utxo in
        if Qle_bool requested total_in' then (inputs', total_in')
        else select_inputs addr requested rest inputs' total_in'
      else select_inputs addr requested rest inputs total_in
  end.

Definition recipient_output (r : string * Q) : TxOutput :=
  {| out_address := fst r; out_amount := snd r |}.

(** The change output, when there is one. *)
Definition change_outputs (wallet : Wallet) (total_in total_out : Q)
  : list TxOutput :=
  let change := round4 (total_in - total_out - FEE) in
  if negb (Qle_bool change 0)
  then [{| out_address := address wallet; out_amount := change |}]
  else [].

(** [create_tx]; [now] is [time.time()]. *)
Definition create_tx (wallet : Wallet) (blockchain : Blockchain)
           (recipients : list (string * Q)) (now : Q) : option Transaction :=
  let requested := py_sum (map snd recipients) in
  let '(inputs, total_in) :=
    select_inputs (address wallet) requested (utxos blockchain) [] 0 in
  if Qeq_bool total_in 0 then None
  else
    let total_out := py_sum (map snd recipients) in
    let outputs :=
      (map recipient_output recipients
       ++ change_outputs wallet total_in total_out)%list in
    let txid :=
      sha256_hexdigest (json_dumps true None (unsigned_tx_to_json inputs outputs now)) in
    Some {| tx_inputs := inputs; tx_outputs := outputs; tx_timestamp := now;
            tx_txid := txid; tx_signature := Some (sign wallet txid) |}.

(** The balance the simulation prints for a wallet. *)
Definition balance (self : Blockchain) (w : Wallet) : Q :=
  py_sum (map (fun item => utxo_amount (snd item))
              (filter (fun item => String.eqb (utxo_address (snd item)) (address w))
                      (utxos self))).

(** The sum of all amounts in the UTXO set. *)
Definition total_value (self : Blockchain) : Q :=
  py_sum (map (fun item => utxo_amount (snd item)) (utxos self)).
End Ledger.

(** ** A runtime without the [ecdsa] package

    [USE_ECDSA] is [False] and [Wallet.sign] takes its fallback branch.
    Numbers print as plain decimals, which is what Python prints for the
    short decimal fractions between 1e-4 and 1e16 used below. *)

Fixpoint fraction_digits (fuel : nat) (r d : Z) : string :=
  match fuel with
  | O => EmptyString
  | S k =>
      if (r =? 0)%Z then EmptyString
      else String (hex_digit ((r * 10) / d)) (fraction_digits k ((r * 10) mod d) d)
  end.

Definition repr_decimal (q : Q) : string :=
  let n := Z.abs (Qnum q) in
  let d := Z.pos (Qden q) in
  let frac := fraction_digits 17 (n mod d) d in
  ((if (Qnum q <? 0)%Z then "-" else EmptyString)
   ++ str_int (n / d) ++ "."
   ++ (if String.eqb frac EmptyString then "0" else frac))%string.

Definition plain_runtime : Runtime :=
  {| repr_float := repr_decimal;
     USE_ECDSA := false;
     ecdsa_sign := fun _ message => message |}.

(** ** Wallets and ledgers used in examples *)

Definition alice : Wallet :=
  {| private_key := "a11ce"; public_key := "a11ce0"; address := "sim-alice" |}.

Definition bob : Wallet :=
  {| private_key := "b0b"; public_key := "b0b0"; address := "sim-bob" |}.

Definition miner : Wallet :=
  {| private_key := "c0de"; public_key := "c0de0"; address := "sim-miner" |}.

(** [chain = Blockchain(difficulty=d); chain.genesis(alice, 1.5)] *)
Definition funded (d : Z) : Blockchain := genesis (new_blockchain d) alice (15 # 10).

(** [tx1 = create_tx(alice, chain, [(bob.address, 0.3)])] at time
    1700000000.5, on the ledger [funded d]. *)
Definition demo_tx (d : Z) : option Transaction :=
  @create_tx plain_runtime alice (funded d) [("sim-bob", 3 # 10)] (17000000005 # 10).

(** The ledger after [chain.add_tx(tx1)]. *)
Definition demo_pending (d : Z) : Blockchain :=
  match demo_tx d with
  | Some tx => snd (add_tx (funded d) tx)
  | None => funded d
  end.

Definition demo_now : string := "2024-01-01T00:00:00".

(** ** Statements taken from the specification *)

(** The first [d] characters of [h] are all ['0']. *)
Definition leading_zeros (d : nat) (h : string) : Prop :=
  forall i, (i < d)%nat -> String.get i h = Some "0"%char.

Section SpecStatements.
Context {R : Runtime}.

(** The block invariant as the specification words it: the digest of the
    canonical serialisation of timestamp, tx, miner and the recorded
    nonce. *)
Definition spec_block_hash (b : Block) : string :=
  sha256_hexdigest
    (json_dumps true None
       (block_fields_to_json (block_timestamp b) (block_tx b) (block_miner b)
                             (block_nonce b))).

(** What the code hashes: the serialisation with nonce 0, followed by the
    decimal text of the recorded nonce. *)
Definition sealed_block_hash (b : Block) : string :=
  sha256_hexdigest
    (block_json_of (block_timestamp b) (block_tx b) (block_miner b)
     ++ str_int (block_nonce b)).
End SpecStatements.

(** A transaction rejected for an unknown input. *)
Definition unknown_input_tx : Transaction :=
  {| tx_inputs := [{| in_txid := "genesis1"; in_vout := 0 |};
                   {| in_txid := "genesis1"; in_vout := 1 |}];
     tx_outputs := [{| out_address := "sim-bob"; out_amount := 1 |}];
     tx_timestamp := 17000000005 # 10;
     tx_txid := "feed";
     tx_signature := None |}.

(** The ledger after [chain.mine_block(miner)] on [demo_pending d], with
    room for [fuel] attempts. *)
Definition demo_mined (fuel : nat) (d : Z) : Blockchain :=
  match @mine_block plain_runtime fuel (demo_pending d) miner demo_now with
  | Some s => s
  | None => demo_pending d
  end.

(** What [mine_block] serialises on [demo_pending d]. *)
Definition demo_block_json (d : Z) : string :=
  @block_json_of plain_runtime demo_now (mempool (demo_pending d)) (address miner).

(** The UTXO that [apply_tx] stores for output [o] at index [idx]. *)
Definition utxo_of_output (txid : string) (idx : Z) (o : TxOutput) : UTXO :=
  {| utxo_txid := txid; utxo_vout := idx;
     utxo_address := out_address o; utxo_amount := out_amount o |}.

(** [tx] has an input that names [k]. *)
Definition consumes (tx : Transaction) (k : OutputRef) : Prop :=
  exists i, In i (tx_inputs tx) /\ input_ref i = k.

(** [k] is the key of one of the outputs of [tx]. *)
Definition creates (tx : Transaction) (k : OutputRef) : Prop :=
  fst k = tx_txid tx /\ (0 <= snd k < Z.of_nat (List.length (tx_outputs tx)))%Z.

(** The state after [mine_block] as the specification words it, from the
    ledger [self] before to the ledger [self'] after. *)
Definition spec_mined_post (self self' : Blockchain) : Prop :=
  mempool self' = []
  /\ List.length (chain self') = S (List.length (chain self))
  /\ (forall tx i, In tx (mempool self) -> In i (tx_inputs tx) ->
        dict_mem ref_eqb (input_ref i) (utxos self') = false)
  /\ (forall tx idx o, In tx (mempool self) ->
        nth_error (tx_outputs tx) idx = Some o ->
        dict_get ref_eqb (tx_txid tx, Z.of_nat idx) (utxos self')
        = Some (utxo_of_output (tx_txid tx) (Z.of_nat idx) o)).

(** A transaction that names itself ["genesis1"]: it spends the genesis
    output and declares an output under the same key. *)
Definition respend_tx : Transaction :=
  {| tx_inputs := [{| in_txid := "genesis1"; in_vout := 0 |}];
     tx_outputs := [{| out_address := "sim-alice"; out_amount := 15 # 10 |}];
     tx_timestamp := 17000000005 # 10;
     tx_txid := "genesis1";
     tx_signature := None |}.

(** [funded 0] after [add_tx(respend_tx)]. *)
Definition respend_pending : Blockchain := snd (add_tx (funded 0) respend_tx).

Definition respend_mined : Blockchain :=
  match @mine_block plain_runtime 1 respend_pending miner demo_now with
  | Some s => s
  | None => respend_pending
  end.

(** [tx] with its ["signature"] entry replaced (or removed). *)
Definition with_signature (tx : Transaction) (sg : option string) : Transaction :=
  {| tx_inputs := tx_inputs tx; tx_outputs := tx_outputs tx;
     tx_timestamp := tx_timestamp tx; tx_txid := tx_txid tx;
     tx_signature := sg |}.

(** A spend of the genesis output, carrying no signature. *)
Definition unsigned_spend : Transaction :=
  {| tx_inputs := [{| in_txid := "genesis1"; in_vout := 0 |}];
     tx_outputs := [{| out_address := "sim-bob"; out_amount := 3 # 10 |};
                    {| out_address := "sim-alice"; out_amount := 11999 # 10000 |}];
     tx_timestamp := 17000000005 # 10;
     tx_txid := "c0ffee";
     tx_signature := None |}.

(** The same spend with a made-up signature. *)
Definition forged_spend : Transaction := with_signature unsigned_spend (Some "00").

(** [w] owns a UTXO of the store. *)
Definition owns_utxo (w : Wallet) (self : Blockchain) : Prop :=
  exists item, In item (utxos self) /\ utxo_address (snd item) = address w.

(** [chain = Blockchain(difficulty=3); chain.genesis(alice, 0)] *)
Definition zero_funded : Blockchain := genesis (new_blockchain 3) alice 0.





(** The transaction of the genesis scenario: [sender] spends the genesis
    output, 0.3 to [recipient] and the change to itself. *)
Definition scenario_tx {R : Runtime} (sender recipient : Wallet) (now : Q) : Transaction :=
  let ins := [{| in_txid := "genesis1"; in_vout := 0%Z |}] in
  let outs := [{| out_address := address recipient; out_amount := 3 # 10 |};
               {| out_address := address sender; out_amount := 11999 # 10000 |}] in
  let txid := sha256_hexdigest (json_dumps true None (unsigned_tx_to_json ins outs now)) in
  {| tx_inputs := ins; tx_outputs := outs; tx_timestamp := now;
     tx_txid := txid; tx_signature := Some (sign sender txid) |}.



(** A second [create_tx] on the same ledger, before anything is mined:
    [create_tx(alice, chain, [(bob.address, 0.4)])] one second later. *)
Definition demo_tx2 (d : Z) : option Transaction :=
  @create_tx plain_runtime alice (funded d) [("sim-bob", 4 # 10)] (17000000015 # 10).

(** The ledger after both transactions went through [add_tx]. *)
Definition double_pending (d : Z) : Blockchain :=
  match demo_tx2 d with
  | Some tx => snd (add_tx (demo_pending d) tx)
  | None => demo_pending d
  end.

Definition double_mined (fuel : nat) (d : Z) : Blockchain :=
  match @mine_block plain_runtime fuel (double_pending d) miner demo_now with
  | Some s => s
  | None => double_pending d
  end.


(** ** Ledgers the program can reach *)

(** The UTXO set is a dict (no key twice) and every record carries, in its
    ["txid"] and ["vout"] entries, the key it is stored under. *)
Definition store_ok (u : UtxoSet) : Prop :=
  NoDup (map fst u)
  /\ forall k v, In (k, v) u -> (utxo_txid v, utxo_vout v) = k.

Section Reachable.
Context {R : Runtime}.

(** The ledgers obtained from [Blockchain(d)] by calls of [genesis],
    [add_tx] and completed calls of [mine_block]. *)
Inductive reachable : Blockchain -> Prop :=
| reach_new (d : Z) : reachable (new_blockchain d)
| reach_genesis (self : Blockchain) (w : Wallet) (amount : Q) :
    reachable self -> reachable (genesis self w amount)
| reach_add_tx (self : Blockchain) (tx : Transaction) :
    reachable self -> reachable (snd (add_tx self tx))
| reach_mine_block (self : Blockchain) (fuel : nat) (w : Wallet) (now : string)
                   (self' : Blockchain) :
    reachable self -> mine_block fuel self w now = Some self' -> reachable self'.

(** Every block of the chain carries the digest of its serialisation (with
    nonce 0) followed by its nonce, that digest starts with [difficulty]
    zeros, and the nonce is not negative. *)
Definition chain_ok (self : Blockchain) : Prop :=
  forall b, In b (chain self) ->
    block_hash b = sealed_block_hash b
    /\ leading_zeros (Z.to_nat (difficulty self)) (block_hash b)
    /\ (0 <= block_nonce b)%Z.
End Reachable.

(** [item] of the UTXO set was put there by [genesis]. *)
Definition from_genesis (item : OutputRef * UTXO) : Prop :=
  exists (n : Z) (addr : string) (amount : Q),
    (0 < n)%Z
    /\ item = (("genesis" ++ str_int n, 0%Z),
               mkUTXO ("genesis" ++ str_int n) 0 addr amount).

(** [item] of the UTXO set is an output of [tx]. *)
Definition output_of (tx : Transaction) (item : OutputRef * UTXO) : Prop :=
  exists (j : nat) (o : TxOutput),
    nth_error (tx_outputs tx) j = Some o
    /\ item = ((tx_txid tx, Z.of_nat j), utxo_of_output (tx_txid tx) (Z.of_nat j) o).

(** [item] is an output of a transaction of a block of [self]. *)
Definition from_chain (self : Blockchain) (item : OutputRef * UTXO) : Prop :=
  exists b tx, In b (chain self) /\ In tx (block_tx b) /\ output_of tx item.

(** ** Further notions used in the properties *)



(** [for tx in txs: chain.add_tx(tx)] *)
Definition add_all (self : Blockchain) (txs : list Transaction) : Blockchain :=
  fold_left (fun s tx => snd (add_tx s tx)) txs self.

(** The first UTXO of the demo ledger after its block, and the transaction
    pending before it. *)
Definition demo_first_utxo : OutputRef * UTXO :=
  nth 0 (utxos (demo_mined 20 1)) ((EmptyString, 0%Z), mkUTXO EmptyString 0 EmptyString 0).

Definition demo_pending_tx : Transaction :=
  nth 0 (mempool (demo_pending 1)) unsigned_spend.

(** [b.hex()] for bytes [b]: two lowercase hexadecimal digits per byte. *)
Fixpoint bytes_hex (b : string) : string :=
  match b with
  | EmptyString => EmptyString
  | String c rest => SHA256.hex_of 2 (Z.of_N (N_of_ascii c)) ++ bytes_hex rest
  end.

Section WalletInit.
Context {R : Runtime}.

(** [Wallet()]. With the [ecdsa] package, [sk] and [vk] are the bytes of
    the generated signing and verifying keys; without it, [rnd] is the
    number [random.random()] returned. *)
Definition Wallet_init (sk vk : string) (rnd : Q) : Wallet :=
  if USE_ECDSA then
    {| private_key := bytes_hex sk;
       public_key := bytes_hex vk;
       address := substring 0 34 (SHA256.hexdigest vk) |}
  else
    let private := sha256_hexdigest (repr_float rnd) in
    let public := sha256_hexdigest private in
    {| private_key := private;
       public_key := public;
       address := "sim" ++ substring 0 32 public |}.
End WalletInit.

(** A runtime with the [ecdsa] package; its signing function is a
    stand-in. *)
Definition ecdsa_runtime : Runtime :=
  {| repr_float := repr_decimal;
     USE_ECDSA := true;
     ecdsa_sign := fun key message => sha256_hexdigest (key ++ message) |}.

(** A ledger whose difficulty no digest can meet, and one that asks for
    nothing. *)
Definition unminable : Blockchain := add_all (funded 65) [unsigned_spend].

Definition free_mining : Blockchain := add_all (funded 0) [unsigned_spend].

(** The ledger [funded 0] after a block mined from its empty mempool. *)
Definition funded_mined : Blockchain :=
  match @mine_block plain_runtime 1 (funded 0) miner demo_now with
  | Some s => s
  | None => funded 0
  end.





(** The order [sort_keys=True] puts items in: by key, ascending. *)
Definition key_lt (a b : string * string) : Prop :=
  String.ltb (fst a) (fst b) = true.

(** The characters [ensure_ascii] lets through: space to tilde. *)
Definition printable (c : ascii) : bool :=
  (32 <=? Z.of_N (N_of_ascii c))%Z && (Z.of_N (N_of_ascii c) <=? 126)%Z.

Fixpoint string_forall (p : ascii -> bool) (s : string) : bool :=
  match s with
  | EmptyString => true
  | String c rest => p c && string_forall p rest
  end.


(** The same two items, inserted in either order. *)
Definition fields_ab : list (string * json) := [("amount", JInt 3); ("address", JStr "sim-bob")].

Definition fields_ba : list (string * json) := [("address", JStr "sim-bob"); ("amount", JInt 3)].

(** ** The simulation *)

(** The UTXO set after the first block of the simulation, and after the
    second: [T1] and [T2] are the txids of the two transactions, [a], [b]
    and [c] the addresses of alice, bob and carol. *)
Definition sim_store1 (T1 a b : string) : UtxoSet :=
  [((T1, 0%Z), mkUTXO T1 0 b (3 # 10)); ((T1, 1%Z), mkUTXO T1 1 a (11999 # 10000))].

Definition sim_store2 (T1 T2 a b c : string) : UtxoSet :=
  [((T1, 0%Z), mkUTXO T1 0 b (3 # 10));
   ((T2, 0%Z), mkUTXO T2 0 b (4 # 10));
   ((T2, 1%Z), mkUTXO T2 1 c (2 # 10));
   ((T2, 2%Z), mkUTXO T2 2 a (5998 # 10000))].

Section Simulation.
Context {R : Runtime}.

(** The second transaction of the simulation: alice spends the change of the
    first, 0.4 to bob, 0.2 to carol and the change to herself. *)
Definition simulation_tx2 (alice bob carol : Wallet) (t1 t2 : Q) : Transaction :=
  let ins := [{| in_txid := tx_txid (scenario_tx alice bob t1); in_vout := 1%Z |}] in
  let outs := [{| out_address := address bob; out_amount := 4 # 10 |};
               {| out_address := address carol; out_amount := 2 # 10 |};
               {| out_address := address alice; out_amount := 5998 # 10000 |}] in
  let txid := sha256_hexdigest (json_dumps true None (unsigned_tx_to_json ins outs t2)) in
  {| tx_inputs := ins; tx_outputs := outs; tx_timestamp := t2;
     tx_txid := txid; tx_signature := Some (sign alice txid) |}.

(** The script under [if __name__ == "__main__"], from the four wallets on.
    [t1], [t2], [t3] are the values of [time.time()] in the three calls of
    [create_tx], [now1] and [now2] the timestamps of the two blocks, [fs] the
    file system. The result is the ledger at the end, whether the script
    printed that it detected a double spend, and the files; [None] when a
    [create_tx] returns [None] (the script then fails in [add_tx]) or a
    [mine_block] exhausts its bound. *)
Definition simulation (alice bob carol miner : Wallet) (t1 t2 t3 : Q)
           (now1 now2 : string) (fuel : nat) (fs : FileSystem)
  : option (Blockchain * bool * FileSystem) :=
  let chain0 := genesis (new_blockchain 3) alice (15 # 10) in
  match create_tx alice chain0 [(address bob, 3 # 10)] t1 with
  | None => None
  | Some tx1 =>
      let chain1 := snd (add_tx chain0 tx1) in
      match mine_block fuel chain1 miner now1 with
      | None => None
      | Some chain2 =>
          match create_tx alice chain2
                          [(address bob, 4 # 10); (address carol, 2 # 10)] t2 with
          | None => None
          | Some tx2 =>
              let chain3 := snd (add_tx chain2 tx2) in
              match mine_block fuel chain3 miner now2 with
              | None => None
              | Some chain4 =>
                  match create_tx alice chain4 [(address bob, 1)] t3 with
                  | None => None
                  | Some tx3 =>
                      let accepted := add_tx chain4 tx3 in
                      let exported := export_data (snd accepted) fs in
                      Some (fst exported, negb (fst accepted), snd exported)
                  end
              end
          end
      end
  end.
End Simulation.

(** [o] when it is there, [d] otherwise. *)
Definition or_default {A : Type} (d : A) (o : option A) : A :=
  match o with
  | Some x => x
  | None => d
  end.

Definition carol : Wallet :=
  {| private_key := "ca401"; public_key := "ca4010"; address := "sim-carol" |}.

(** A run of the simulation: the three [create_tx] calls one second apart,
    the two blocks stamped as below, no file on disk, and room for five
    attempts in each [mine_block]. *)
Definition simulation_run : option (Blockchain * bool * list (string * string)) :=
  @simulation plain_runtime alice bob carol miner
    (17000000005 # 10) (17000000015 # 10) (17000000025 # 10)
    "2024-01-01T00:00:00.003384" "2024-01-01T00:00:00.000890" 5 [].

Definition simulation_final : Blockchain :=
  fst (fst (or_default (new_blockchain 3, false, []) simulation_run)).

Definition simulation_files : list (string * string) :=
  snd (or_default (new_blockchain 3, false, []) simulation_run).

(** * Properties *)

(** ** The hash function on published test vectors *)

Example sha256_empty :
  SHA256.hexdigest EmptyString = "e3b0c44298fc1c149afbf4c8996fb92427ae41e4649b934ca495991b7852b855".
Proof. vm_compute. reflexivity. Qed.

Example sha256_constants :
  nth 0 SHA256.K 0%Z = 0x428a2f98%Z /\ nth 63 SHA256.K 0%Z = 0xc67178f2%Z
  /\ nth 0 SHA256.H0 0%Z = 0x6a09e667%Z /\ nth 7 SHA256.H0 0%Z = 0x5be0cd19%Z.
Proof. repeat split. Qed.

Example sha256_abc :
  SHA256.hexdigest "abc" = "ba7816bf8f01cfea414140de5dae2223b00361a396177a9cb410ff61f20015ad".
Proof. vm_compute. reflexivity. Qed.

Example sha256_two_blocks :
  SHA256.hexdigest "abcdbcdecdefdefgefghfghighijhijkijkljklmklmnlmnomnopnopq"
  = "248d6a61d20638b8e5c026930c3e6039a33ce45964ff2167f6ecedd419db06c1".
Proof. vm_compute. reflexivity. Qed.

Example str_int_samples :
  str_int 0 = "0" /\ str_int 1205 = "1205" /\ str_int (-7) = "-7".
Proof. vm_compute. auto. Qed.

(** The demo transaction and its block, as [hashlib] and [json] give them. *)
Example demo_tx_txid :
  option_map tx_txid (demo_tx 1)
  = Some "87a3df057f7793ae54e558c78417e22b19336592329f70b7b20a946fc573ed10".
Proof. vm_compute. reflexivity. Qed.

(** ** Dictionaries *)

Section DictFacts.
Context {K V : Type} (eqb : K -> K -> bool).
Hypothesis eqb_eq : forall a b, eqb a b = true <-> a = b.

Lemma eqb_refl_true (k : K) : eqb k k = true.
Proof. apply eqb_eq. reflexivity. Qed.

Lemma eqb_neq_false (a b : K) : a <> b -> eqb a b = false.
Proof.
  intros Hne. destruct (eqb a b) eqn:E; [|reflexivity].
  apply eqb_eq in E. contradiction.
Qed.

Lemma dict_get_del_same (k : K) (d : list (K * V)) :
  dict_get eqb k (dict_del eqb k d) = None.
Proof.
  induction d as [|[k' v] d IH]; simpl; [reflexivity|].
  destruct (eqb k k') eqn:E; simpl; [assumption|].
  rewrite E. assumption.
Qed.

Lemma dict_get_del_other (k k0 : K) (d : list (K * V)) :
  k0 <> k -> dict_get eqb k0 (dict_del eqb k d) = dict_get eqb k0 d.
Proof.
  intros Hne. induction d as [|[k' v] d IH]; simpl; [reflexivity|].
  destruct (eqb k k') eqn:E; simpl.
  - apply eqb_eq in E. subst k'.
    rewrite (eqb_neq_false _ _ Hne). assumption.
  - rewrite IH. reflexivity.
Qed.

Lemma dict_get_replace_same (k : K) (v : V) (d : list (K * V)) :
  dict_get eqb k (dict_replace eqb k v d)
  = match dict_get eqb k d with Some _ => Some v | None => None end.
Proof.
  induction d as [|[k' v'] d IH]; simpl; [reflexivity|].
  destruct (eqb k k') eqn:E; simpl; rewrite E; [reflexivity|assumption].
Qed.

Lemma dict_get_replace_other (k k0 : K) (v : V) (d : list (K * V)) :
  k0 <> k -> dict_get eqb k0 (dict_replace eqb k v d) = dict_get eqb k0 d.
Proof.
  intros Hne. induction d as [|[k' v'] d IH]; simpl; [reflexivity|].
  destruct (eqb k k') eqn:E; simpl.
  - apply eqb_eq in E. subst k'.
    rewrite (eqb_neq_false _ _ Hne). assumption.
  - rewrite IH. reflexivity.
Qed.

Lemma dict_get_app (k : K) (d1 d2 : list (K * V)) :
  dict_get eqb k (d1 ++ d2)
  = match dict_get eqb k d1 with Some v => Some v | None => dict_get eqb k d2 end.
Proof.
  induction d1 as [|[k' v'] d1 IH]; simpl; [reflexivity|].
  destruct (eqb k k'); [reflexivity|assumption].
Qed.

Lemma dict_get_set_same (k : K) (v : V) (d : list (K * V)) :
  dict_get eqb k (dict_set eqb k v d) = Some v.
Proof.
  unfold dict_set, dict_mem.
  destruct (dict_get eqb k d) eqn:E.
  - rewrite dict_get_replace_same, E. reflexivity.
  - rewrite dict_get_app, E. simpl. rewrite eqb_refl_true. reflexivity.
Qed.

Lemma dict_get_set_other (k k0 : K) (v : V) (d : list (K * V)) :
  k0 <> k -> dict_get eqb k0 (dict_set eqb k v d) = dict_get eqb k0 d.
Proof.
  intros Hne. unfold dict_set, dict_mem.
  destruct (dict_get eqb k d) eqn:E.
  - apply dict_get_replace_other. assumption.
  - rewrite dict_get_app. simpl. rewrite (eqb_neq_false _ _ Hne).
    destruct (dict_get eqb k0 d); reflexivity.
Qed.






Lemma dict_mem_set_same (k : K) (v : V) (d : list (K * V)) :
  dict_mem eqb k (dict_set eqb k v d) = true.
Proof. unfold dict_mem at 1. rewrite dict_get_set_same. reflexivity. Qed.

Lemma dict_mem_set_other (k k0 : K) (v : V) (d : list (K * V)) :
  k0 <> k -> dict_mem eqb k0 (dict_set eqb k v d) = dict_mem eqb k0 d.
Proof.
  intros Hne. unfold dict_mem. rewrite dict_get_set_other by assumption.
  reflexivity.
Qed.
End DictFacts.

Lemma ref_eqb_eq (a b : OutputRef) : ref_eqb a b = true <-> a = b.
Proof.
  destruct a as [t v], b as [t' v']. unfold ref_eqb. simpl.
  rewrite andb_true_iff, String.eqb_eq, Z.eqb_eq.
  split; [intros [-> ->]; reflexivity | intros H; inversion H; auto].
Qed.

(** ** Admission *)

Lemma resolve_inputs_absent (u : UtxoSet) (ins : list TxInput) (acc : Q) :
  (exists i, In i ins /\ dict_mem ref_eqb (input_ref i) u = false) ->
  resolve_inputs u ins acc = None.
Proof.
  revert acc. induction ins as [|j rest IH]; intros acc [i [Hin Hi]].
  - destruct Hin.
  - simpl. unfold dict_mem in Hi.
    destruct (dict_get ref_eqb (input_ref j) u) eqn:Ej; [|reflexivity].
    destruct Hin as [->|Hin].
    + rewrite Ej in Hi. discriminate.
    + apply IH. exists i. split; assumption.
Qed.

(** C2. When some input of a transaction names an output reference that is
    not in the UTXO store, [add_tx] returns [False] and the ledger (UTXO
    store, mempool, chain and difficulty) is the one it was given. *)
Theorem add_tx_unknown_input_rejected (self : Blockchain) (tx : Transaction) :
  (exists i, In i (tx_inputs tx)
             /\ dict_mem ref_eqb (in_txid i, in_vout i) (utxos self) = false) ->
  add_tx self tx = (false, self).
Proof.
  intros H. unfold add_tx, verify_tx.
  rewrite (resolve_inputs_absent _ _ _ H). reflexivity.
Qed.

Lemma add_tx_unknown_input_rejected_witness :
  (exists i, In i (tx_inputs unknown_input_tx)
             /\ dict_mem ref_eqb (in_txid i, in_vout i) (utxos (funded 3)) = false)
  /\ add_tx (funded 3) unknown_input_tx = (false, funded 3).
Proof.
  assert (H : exists i, In i (tx_inputs unknown_input_tx)
             /\ dict_mem ref_eqb (in_txid i, in_vout i) (utxos (funded 3)) = false).
  { exists {| in_txid := "genesis1"; in_vout := 1 |}. split.
    - right. left. reflexivity.
    - vm_compute. reflexivity. }
  split; [exact H|].
  exact (add_tx_unknown_input_rejected (funded 3) unknown_input_tx H).
Defined.

(** ** Proof of work *)

Lemma prefix_cons (a c : ascii) (p h : string) :
  String.prefix (String a p) (String c h)
  = if ascii_dec a c then String.prefix p h else false.
Proof. reflexivity. Qed.

Lemma prefix_leading_zeros (d : nat) (h : string) :
  String.prefix (str_repeat "0" d) h = true <-> leading_zeros d h.
Proof.
  revert h. induction d as [|d IH]; intros h.
  - split; [intros _ i Hi; lia | destruct h; reflexivity].
  - change (str_repeat "0" (S d)) with (String "0" (str_repeat "0" d)).
    destruct h as [|c h].
    + split; [discriminate|]. intros H. specialize (H 0%nat ltac:(lia)).
      simpl in H. discriminate.
    + rewrite prefix_cons. destruct (ascii_dec "0" c) as [Hc|Hc].
      * subst c. rewrite IH. split; intros H i Hi.
        -- destruct i as [|i]; [reflexivity|]. simpl. apply H. lia.
        -- apply (H (S i)). lia.
      * split; [discriminate|]. intros H. specialize (H 0%nat ltac:(lia)).
        simpl in H. congruence.
Qed.

Lemma meets_target_leading_zeros (d : Z) (h : string) :
  meets_target d h = true <-> leading_zeros (Z.to_nat d) h.
Proof. unfold meets_target, startswith, str_mul. apply prefix_leading_zeros. Qed.

Lemma pow_search_sound (fuel : nat) (bj : string) (d n0 n : Z) (h : string) :
  pow_search fuel bj d n0 = Some (n, h) ->
  (n0 <= n)%Z /\ h = hash_try bj n /\ meets_target d h = true.
Proof.
  revert n0. induction fuel as [|fuel IH]; intros n0; simpl; [discriminate|].
  destruct (meets_target d (hash_try bj n0)) eqn:E.
  - intros H. inversion H; subst. repeat split; [lia|assumption].
  - intros H. destruct (IH _ H) as (Hle & Hh & Hm). repeat split; [lia|assumption..].
Qed.

Lemma pow_search_least (fuel : nat) (bj : string) (d n0 n : Z) :
  (n0 <= n)%Z ->
  meets_target d (hash_try bj n) = true ->
  (forall m, (n0 <= m < n)%Z -> meets_target d (hash_try bj m) = false) ->
  (Z.to_nat (n - n0) < fuel)%nat ->
  pow_search fuel bj d n0 = Some (n, hash_try bj n).
Proof.
  revert n0. induction fuel as [|fuel IH]; intros n0 Hle Hn Hmin Hfuel; [lia|].
  simpl. destruct (Z.eq_dec n0 n) as [->|Hne].
  - rewrite Hn. reflexivity.
  - rewrite (Hmin n0) by lia. apply IH; [lia|assumption| |lia].
    intros m Hm. apply Hmin. lia.
Qed.

(** A bounded search from [n0] over [span] candidates finds the least one
    that meets the target, when there is one. *)
Lemma least_nonce_exists (bj : string) (d : Z) (span : nat) (n0 : Z) :
  (exists k, (n0 <= k < n0 + Z.of_nat span)%Z
             /\ meets_target d (hash_try bj k) = true) ->
  exists n, (n0 <= n)%Z /\ meets_target d (hash_try bj n) = true
            /\ forall m, (n0 <= m < n)%Z -> meets_target d (hash_try bj m) = false.
Proof.
  revert n0. induction span as [|span IH]; intros n0 [k [Hk Hm]]; [lia|].
  destruct (meets_target d (hash_try bj n0)) eqn:E.
  - exists n0. repeat split; [lia|assumption|]. intros m Hlt. lia.
  - destruct (IH (n0 + 1)%Z) as (n & Hle & Hn & Hmin).
    + exists k. split; [|assumption].
      assert (k <> n0) by (intros ->; congruence). lia.
    + exists n. repeat split; [lia|assumption|].
      intros m Hlt. destruct (Z.eq_dec m n0) as [->|Hne]; [assumption|].
      apply Hmin. lia.
Qed.

Lemma fold_apply_tx_frame (txs : list Transaction) (self : Blockchain) :
  chain (fold_left apply_tx txs self) = chain self
  /\ difficulty (fold_left apply_tx txs self) = difficulty self
  /\ mempool (fold_left apply_tx txs self) = mempool self
  /\ utxos (fold_left apply_tx txs self) = fold_left apply_tx_utxos txs (utxos self).
Proof.
  revert self. induction txs as [|tx txs IH]; intros self; simpl; [auto|].
  destruct (IH (apply_tx self tx)) as (Hc & Hd & Hm & Hu).
  rewrite Hc, Hd, Hm, Hu. simpl. auto.
Qed.

Section Mining.
Context {R : Runtime}.

(** What a completed [mine_block] leaves: the block it appended and the
    ledger around it. *)
Lemma mine_block_inv (fuel : nat) (self : Blockchain) (w : Wallet) (now : string)
      (self' : Blockchain) :
  mine_block fuel self w now = Some self' ->
  exists n h,
    pow_search fuel (block_json_of now (mempool self) (address w))
               (difficulty self) 0 = Some (n, h)
    /\ self' = {| chain := (chain self
                            ++ [{| block_timestamp := now;
                                   block_tx := mempool self;
                                   block_miner := address w;
                                   block_nonce := n; block_hash := h |}])%list;
                  utxos := fold_left apply_tx_utxos (mempool self) (utxos self);
                  difficulty := difficulty self;
                  mempool := [] |}.
Proof.
  unfold mine_block.
  destruct (pow_search fuel _ (difficulty self) 0) as [[n h]|]; [|discriminate].
  intros H. inversion H; subst. exists n, h. split; [reflexivity|].
  destruct (fold_apply_tx_frame (mempool self) self) as (Hc & Hd & _ & Hu).
  rewrite Hc, Hd, Hu. reflexivity.
Qed.

(** C4, amended. The hash recorded in a mined block is the digest of the
    canonical serialisation of its timestamp, tx, miner and nonce 0,
    followed by the decimal text of the recorded nonce. *)
Theorem mine_block_hash_of_skeleton (fuel : nat) (self : Blockchain) (w : Wallet)
        (now : string) (self' : Blockchain) :
  mine_block fuel self w now = Some self' ->
  exists b, chain self' = (chain self ++ [b])%list
            /\ block_hash b = sealed_block_hash b.
Proof.
  intros H. destruct (mine_block_inv _ _ _ _ _ H) as (n & h & Hpow & ->).
  eexists. split; [reflexivity|].
  destruct (pow_search_sound _ _ _ _ _ _ Hpow) as (_ & Hh & _).
  unfold sealed_block_hash. simpl. exact Hh.
Qed.

(** C5. When some nonce meets the target, there is a least one [n >= 0],
    and with room for more than [n] attempts [mine_block] completes,
    recording nonce [n] and, as hash, the SHA-256 digest of the block
    serialisation (made once, with nonce 0) followed by the decimal text of
    [n]; that hash starts with [difficulty] zeros. *)
Theorem mine_block_least_nonce (self : Blockchain) (w : Wallet) (now : string) :
  let block_json := block_json_of now (mempool self) (address w) in
  let wins (n : Z) :=
    leading_zeros (Z.to_nat (difficulty self))
                  (sha256_hexdigest (block_json ++ str_int n)) in
  (exists k, (0 <= k)%Z /\ wins k) ->
  exists n, (0 <= n)%Z /\ wins n
            /\ (forall m, (0 <= m < n)%Z -> ~ wins m)
            /\ forall fuel, (Z.to_nat n < fuel)%nat ->
                 exists self' b,
                   mine_block fuel self w now = Some self'
                   /\ chain self' = (chain self ++ [b])%list
                   /\ block_nonce b = n
                   /\ block_hash b = sha256_hexdigest (block_json ++ str_int n)
                   /\ leading_zeros (Z.to_nat (difficulty self)) (block_hash b).
Proof.
  intros bj wins [k [Hk Hw]].
  assert (Hiff : forall n, meets_target (difficulty self) (hash_try bj n) = true
                           <-> wins n)
    by (intros n; apply meets_target_leading_zeros).
  destruct (least_nonce_exists bj (difficulty self) (S (Z.to_nat k)) 0)
    as (n & Hn0 & Hn & Hmin).
  { exists k. split; [lia|]. apply Hiff. exact Hw. }
  exists n. split; [exact Hn0|]. split; [apply Hiff; exact Hn|]. split.
  - intros m Hm Hwm. apply Hiff in Hwm. rewrite (Hmin m Hm) in Hwm. discriminate.
  - intros fuel Hfuel.
    assert (Hpow : pow_search fuel bj (difficulty self) 0 = Some (n, hash_try bj n)).
    { apply pow_search_least; [assumption..|].
      replace (n - 0)%Z with n by lia. exact Hfuel. }
    unfold mine_block. fold bj. rewrite Hpow.
    eexists. eexists. split; [reflexivity|]. simpl.
    destruct (fold_apply_tx_frame (mempool self) self) as (Hc & _).
    rewrite Hc. repeat split. apply Hiff. exact Hn.
Qed.
End Mining.

Example demo_mined_block :
  map (fun b => (block_nonce b, block_hash b)) (chain (demo_mined 20 1))
  = [(10%Z, "0602b9bf53c97e507fb33f984161f0f3923ba34dc4c4bfa31d054d54b890ebd4")].
Proof. vm_compute. reflexivity. Qed.

Lemma mine_block_hash_of_skeleton_witness :
  @mine_block plain_runtime 20 (demo_pending 1) miner demo_now = Some (demo_mined 20 1)
  /\ exists b, chain (demo_mined 20 1) = (chain (demo_pending 1) ++ [b])%list
               /\ block_hash b = @sealed_block_hash plain_runtime b.
Proof.
  assert (H : @mine_block plain_runtime 20 (demo_pending 1) miner demo_now
              = Some (demo_mined 20 1)) by (vm_compute; reflexivity).
  split; [exact H|].
  exact (@mine_block_hash_of_skeleton plain_runtime 20 (demo_pending 1) miner
           demo_now (demo_mined 20 1) H).
Defined.

(** C4, as stated, fails: the block mined from the demo mempool records
    nonce 10 and a hash that is not the digest of its canonical
    serialisation with nonce 10. *)
Lemma mined_hash_is_not_spec_hash :
  @mine_block plain_runtime 20 (demo_pending 1) miner demo_now = Some (demo_mined 20 1)
  /\ exists b, chain (demo_mined 20 1) = [b]
               /\ block_nonce b = 10%Z
               /\ block_hash b <> @spec_block_hash plain_runtime b.
Proof.
  split; [vm_compute; reflexivity|].
  eexists. split; [vm_compute; reflexivity|].
  split; [reflexivity|].
  vm_compute. discriminate.
Qed.

Lemma mine_block_least_nonce_witness :
  (exists k, (0 <= k)%Z
             /\ leading_zeros (Z.to_nat (difficulty (demo_pending 1)))
                  (sha256_hexdigest (demo_block_json 1 ++ str_int k)))
  /\ exists n, (0 <= n)%Z
       /\ leading_zeros (Z.to_nat (difficulty (demo_pending 1)))
            (sha256_hexdigest (demo_block_json 1 ++ str_int n))
       /\ (forall m, (0 <= m < n)%Z ->
             ~ leading_zeros (Z.to_nat (difficulty (demo_pending 1)))
                 (sha256_hexdigest (demo_block_json 1 ++ str_int m)))
       /\ forall fuel, (Z.to_nat n < fuel)%nat ->
            exists self' b,
              @mine_block plain_runtime fuel (demo_pending 1) miner demo_now = Some self'
              /\ chain self' = (chain (demo_pending 1) ++ [b])%list
              /\ block_nonce b = n
              /\ block_hash b = sha256_hexdigest (demo_block_json 1 ++ str_int n)
              /\ leading_zeros (Z.to_nat (difficulty (demo_pending 1))) (block_hash b).
Proof.
  assert (H : exists k, (0 <= k)%Z
             /\ leading_zeros (Z.to_nat (difficulty (demo_pending 1)))
                  (sha256_hexdigest (demo_block_json 1 ++ str_int k))).
  { exists 10%Z. split; [lia|].
    apply meets_target_leading_zeros. vm_compute. reflexivity. }
  split; [exact H|].
  exact (@mine_block_least_nonce plain_runtime (demo_pending 1) miner demo_now H).
Defined.

(** ** Applying transactions to the UTXO set *)

Lemma spend_input_get (u : UtxoSet) (i : TxInput) (k : OutputRef) :
  dict_get ref_eqb k (spend_input u i)
  = if ref_eqb k (input_ref i) then None else dict_get ref_eqb k u.
Proof.
  unfold spend_input, dict_mem.
  destruct (ref_eqb k (input_ref i)) eqn:E.
  - apply ref_eqb_eq in E. subst k.
    destruct (dict_get ref_eqb (input_ref i) u) eqn:G; [|exact G].
    apply dict_get_del_same.
  - assert (Hne : k <> input_ref i)
      by (intros ->; rewrite (eqb_refl_true _ ref_eqb_eq) in E; discriminate).
    destruct (dict_get ref_eqb (input_ref i) u); [|reflexivity].
    apply (dict_get_del_other _ ref_eqb_eq). exact Hne.
Qed.

Lemma spend_inputs_consumed (ins : list TxInput) (u : UtxoSet) (k : OutputRef) :
  dict_get ref_eqb k u = None \/ (exists i, In i ins /\ input_ref i = k) ->
  dict_get ref_eqb k (fold_left spend_input ins u) = None.
Proof.
  revert u. induction ins as [|j rest IH]; intros u H; simpl.
  - destruct H as [H|[i [[] _]]]. exact H.
  - apply IH. rewrite spend_input_get.
    destruct (ref_eqb k (input_ref j)) eqn:E; [left; reflexivity|].
    destruct H as [H|[i [[->|Hin] Hi]]].
    + left. exact H.
    + subst k. rewrite (eqb_refl_true _ ref_eqb_eq) in E. discriminate.
    + right. exists i. split; assumption.
Qed.

Lemma spend_inputs_untouched (ins : list TxInput) (u : UtxoSet) (k : OutputRef) :
  (forall i, In i ins -> input_ref i <> k) ->
  dict_get ref_eqb k (fold_left spend_input ins u) = dict_get ref_eqb k u.
Proof.
  revert u. induction ins as [|j rest IH]; intros u H; simpl; [reflexivity|].
  rewrite IH by (intros i Hi; apply H; right; exact Hi).
  rewrite spend_input_get.
  destruct (ref_eqb k (input_ref j)) eqn:E; [|reflexivity].
  apply ref_eqb_eq in E. exfalso. apply (H j); [left; reflexivity|]. congruence.
Qed.

Lemma add_outputs_other (outs : list TxOutput) (txid : string) (idx : Z)
      (u : UtxoSet) (k : OutputRef) :
  ~ (fst k = txid /\ (idx <= snd k < idx + Z.of_nat (List.length outs))%Z) ->
  dict_get ref_eqb k (add_outputs txid idx outs u) = dict_get ref_eqb k u.
Proof.
  revert idx u. induction outs as [|o rest IH]; intros idx u H; simpl; [reflexivity|].
  rewrite IH.
  - apply (dict_get_set_other _ ref_eqb_eq). intros ->. apply H.
    cbn [fst snd List.length]. split; [reflexivity|]. rewrite Nat2Z.inj_succ. lia.
  - intros [Hf Hs]. apply H. split; [exact Hf|].
    cbn [List.length]. rewrite Nat2Z.inj_succ. lia.
Qed.

Lemma add_outputs_created (outs : list TxOutput) (txid : string) (idx : Z)
      (u : UtxoSet) (j : nat) (o : TxOutput) :
  nth_error outs j = Some o ->
  dict_get ref_eqb (txid, (idx + Z.of_nat j)%Z) (add_outputs txid idx outs u)
  = Some (utxo_of_output txid (idx + Z.of_nat j) o).
Proof.
  revert idx u j. induction outs as [|o' rest IH]; intros idx u j Hj.
  - destruct j; discriminate.
  - destruct j as [|j]; simpl in Hj.
    + inversion Hj; subst o'. cbn [add_outputs Z.of_nat]. rewrite Z.add_0_r.
      rewrite add_outputs_other by (cbn [fst snd]; lia).
      apply (dict_get_set_same _ ref_eqb_eq).
    + simpl add_outputs.
      replace (idx + Z.of_nat (S j))%Z with (idx + 1 + Z.of_nat j)%Z
        by (rewrite Nat2Z.inj_succ; lia).
      apply IH. exact Hj.
Qed.

Lemma creates_dec (tx : Transaction) (k : OutputRef) :
  {creates tx k} + {~ creates tx k}.
Proof.
  unfold creates.
  destruct (string_dec (fst k) (tx_txid tx)) as [Ht|Ht]; [|right; tauto].
  destruct (Z_le_dec 0 (snd k)) as [H0|H0]; [|right; lia].
  destruct (Z_lt_dec (snd k) (Z.of_nat (List.length (tx_outputs tx)))) as [H1|H1];
    [left; tauto | right; lia].
Qed.

Lemma creates_nth (tx : Transaction) (k : OutputRef) :
  creates tx k ->
  exists j o, k = (tx_txid tx, Z.of_nat j) /\ nth_error (tx_outputs tx) j = Some o.
Proof.
  intros [Ht [H0 H1]]. destruct k as [t s]. simpl in *. subst t.
  destruct (nth_error (tx_outputs tx) (Z.to_nat s)) as [o|] eqn:E.
  - exists (Z.to_nat s), o. rewrite Z2Nat.id by lia. split; [reflexivity|exact E].
  - apply nth_error_None in E. lia.
Qed.

Lemma apply_tx_created (u : UtxoSet) (tx : Transaction) (j : nat) (o : TxOutput) :
  nth_error (tx_outputs tx) j = Some o ->
  dict_get ref_eqb (tx_txid tx, Z.of_nat j) (apply_tx_utxos u tx)
  = Some (utxo_of_output (tx_txid tx) (Z.of_nat j) o).
Proof.
  intros Hj. unfold apply_tx_utxos.
  apply (add_outputs_created _ (tx_txid tx) 0 _ j o Hj).
Qed.

Lemma apply_tx_not_created (u : UtxoSet) (tx : Transaction) (k : OutputRef) :
  ~ creates tx k ->
  dict_get ref_eqb k (apply_tx_utxos u tx) = dict_get ref_eqb k (fold_left spend_input (tx_inputs tx) u).
Proof.
  intros H. unfold apply_tx_utxos. apply add_outputs_other.
  intros [Hf Hs]. apply H. split; [exact Hf|lia].
Qed.

(** A reference that some transaction of the list consumes, and none
    creates, is absent once all have been applied. *)
Lemma applied_consumed_absent (txs : list Transaction) (u : UtxoSet) (k : OutputRef) :
  (forall tx, In tx txs -> ~ creates tx k) ->
  dict_get ref_eqb k u = None \/ (exists tx, In tx txs /\ consumes tx k) ->
  dict_get ref_eqb k (fold_left apply_tx_utxos txs u) = None.
Proof.
  revert u. induction txs as [|tx rest IH]; intros u Hnc H; simpl.
  - destruct H as [H|[tx [[] _]]]. exact H.
  - apply IH; [intros tx' Hin; apply Hnc; right; exact Hin|].
    rewrite apply_tx_not_created by (apply Hnc; left; reflexivity).
    destruct H as [H|[tx' [[->|Hin] Hc]]].
    + left. apply spend_inputs_consumed. left. exact H.
    + left. apply spend_inputs_consumed. right. exact Hc.
    + right. exists tx'. split; assumption.
Qed.

(** A key that no transaction of the list consumes, and that every
    transaction creating it binds to [v], is bound to [v] once all have been
    applied, provided one of them creates it (or it was bound to [v]). *)
Lemma applied_created_present (txs : list Transaction) (u : UtxoSet)
      (k : OutputRef) (v : UTXO) :
  (forall tx, In tx txs -> ~ consumes tx k) ->
  (forall tx j o, In tx txs -> k = (tx_txid tx, Z.of_nat j) ->
                  nth_error (tx_outputs tx) j = Some o ->
                  utxo_of_output (tx_txid tx) (Z.of_nat j) o = v) ->
  dict_get ref_eqb k u = Some v \/ (exists tx, In tx txs /\ creates tx k) ->
  dict_get ref_eqb k (fold_left apply_tx_utxos txs u) = Some v.
Proof.
  revert u. induction txs as [|tx rest IH]; intros u Hnc Hv H; simpl.
  - destruct H as [H|[tx [[] _]]]. exact H.
  - apply IH.
    + intros tx' Hin. apply Hnc. right. exact Hin.
    + intros tx' j o Hin. apply Hv. right. exact Hin.
    + destruct (creates_dec tx k) as [Hc|Hc].
      * left. destruct (creates_nth _ _ Hc) as (j & o & -> & Hj).
        rewrite (apply_tx_created u tx j o Hj). f_equal.
        apply (Hv tx j o); [left; reflexivity|reflexivity|exact Hj].
      * rewrite apply_tx_not_created by exact Hc.
        rewrite spend_inputs_untouched.
        2:{ intros i Hi Hk. apply (Hnc tx); [left; reflexivity|].
            exists i. split; assumption. }
        destruct H as [H|[tx' [[->|Hin] Hc']]].
        -- left. exact H.
        -- contradiction.
        -- right. exists tx'. split; assumption.
Qed.

(** ** The state after mining *)

Section MinedState.
Context {R : Runtime}.

(** C3, amended. After [mine_block] completes the mempool is empty and the
    chain is one block longer. A reference consumed by an included
    transaction is absent from the store unless it is also the key of an
    output of an included transaction. An output of an included
    transaction is in the store under (its txid, its index) with its
    amount and address, unless an included transaction consumes that key
    or another included transaction with the same txid declares a
    different output at that index. *)
Theorem mine_block_post (fuel : nat) (self : Blockchain) (w : Wallet)
        (now : string) (self' : Blockchain) :
  mine_block fuel self w now = Some self' ->
  mempool self' = []
  /\ List.length (chain self') = S (List.length (chain self))
  /\ (forall tx i, In tx (mempool self) -> In i (tx_inputs tx) ->
        (forall tx', In tx' (mempool self) -> ~ creates tx' (input_ref i)) ->
        dict_mem ref_eqb (input_ref i) (utxos self') = false)
  /\ (forall tx idx o, In tx (mempool self) ->
        nth_error (tx_outputs tx) idx = Some o ->
        (forall tx', In tx' (mempool self) ->
                     ~ consumes tx' (tx_txid tx, Z.of_nat idx)) ->
        (forall tx' o', In tx' (mempool self) -> tx_txid tx' = tx_txid tx ->
                        nth_error (tx_outputs tx') idx = Some o' -> o' = o) ->
        dict_get ref_eqb (tx_txid tx, Z.of_nat idx) (utxos self')
        = Some (utxo_of_output (tx_txid tx) (Z.of_nat idx) o)).
Proof.
  intros H. destruct (mine_block_inv _ _ _ _ _ H) as (n & h & _ & ->).
  cbn [mempool chain utxos]. split; [reflexivity|]. split.
  { rewrite length_app. cbn [List.length]. lia. }
  split.
  - intros tx i Htx Hi Hfresh. unfold dict_mem.
    rewrite applied_consumed_absent; [reflexivity|exact Hfresh|].
    right. exists tx. split; [exact Htx|]. exists i. split; [exact Hi|reflexivity].
  - intros tx idx o Htx Ho Hkeep Hagree.
    apply applied_created_present.
    + exact Hkeep.
    + intros tx' j o' Hin Hk Hj. injection Hk as Ht Hidx.
      apply Nat2Z.inj in Hidx. subst j.
      rewrite <- Ht. f_equal. apply (Hagree tx' o' Hin); [congruence|exact Hj].
    + right. exists tx. split; [exact Htx|]. split; [reflexivity|].
      cbn [snd]. assert (idx < List.length (tx_outputs tx))%nat
        by (apply nth_error_Some; congruence). lia.
Qed.
End MinedState.

(** C3, as stated, fails: a transaction that names itself after the output
    it spends is accepted, and after mining the reference it consumed is in
    the store again. *)
Lemma respend_breaks_spec_mined_post :
  add_tx (funded 0) respend_tx = (true, respend_pending)
  /\ @mine_block plain_runtime 1 respend_pending miner demo_now = Some respend_mined
  /\ ~ spec_mined_post respend_pending respend_mined.
Proof.
  split; [vm_compute; reflexivity|]. split; [vm_compute; reflexivity|].
  intros (_ & _ & Hspent & _).
  specialize (Hspent respend_tx {| in_txid := "genesis1"; in_vout := 0 |}).
  assert (Hin : In respend_tx (mempool respend_pending))
    by (vm_compute; left; reflexivity).
  specialize (Hspent Hin (or_introl eq_refl)).
  vm_compute in Hspent. discriminate.
Qed.

Lemma mine_block_post_witness :
  @mine_block plain_runtime 20 (demo_pending 1) miner demo_now = Some (demo_mined 20 1)
  /\ mempool (demo_mined 20 1) = []
  /\ List.length (chain (demo_mined 20 1)) = S (List.length (chain (demo_pending 1)))
  /\ (forall tx i, In tx (mempool (demo_pending 1)) -> In i (tx_inputs tx) ->
        (forall tx', In tx' (mempool (demo_pending 1)) -> ~ creates tx' (input_ref i)) ->
        dict_mem ref_eqb (input_ref i) (utxos (demo_mined 20 1)) = false)
  /\ (forall tx idx o, In tx (mempool (demo_pending 1)) ->
        nth_error (tx_outputs tx) idx = Some o ->
        (forall tx', In tx' (mempool (demo_pending 1)) ->
                     ~ consumes tx' (tx_txid tx, Z.of_nat idx)) ->
        (forall tx' o', In tx' (mempool (demo_pending 1)) -> tx_txid tx' = tx_txid tx ->
                        nth_error (tx_outputs tx') idx = Some o' -> o' = o) ->
        dict_get ref_eqb (tx_txid tx, Z.of_nat idx) (utxos (demo_mined 20 1))
        = Some (utxo_of_output (tx_txid tx) (Z.of_nat idx) o)).
Proof.
  assert (H : @mine_block plain_runtime 20 (demo_pending 1) miner demo_now
              = Some (demo_mined 20 1)) by (vm_compute; reflexivity).
  split; [exact H|].
  exact (@mine_block_post plain_runtime 20 (demo_pending 1) miner demo_now
           (demo_mined 20 1) H).
Defined.

(** ** Admission and the signature *)

Lemma verify_tx_same_content (self : Blockchain) (tx1 tx2 : Transaction) :
  tx_inputs tx1 = tx_inputs tx2 -> tx_outputs tx1 = tx_outputs tx2 ->
  verify_tx self tx1 = verify_tx self tx2.
Proof. intros Hi Ho. unfold verify_tx. rewrite Hi, Ho. reflexivity. Qed.

(** C6, amended. For two transactions with the same inputs, outputs,
    timestamp and txid, whatever their signatures, [add_tx] returns the same
    boolean and leaves the same chain, UTXO store and difficulty. When it
    rejects, both ledgers are the one given; when it accepts, each mempool
    is the old one followed by the submitted transaction, signature
    included. *)
Theorem add_tx_ignores_signature (self : Blockchain) (tx1 tx2 : Transaction) :
  tx_inputs tx1 = tx_inputs tx2 ->
  tx_outputs tx1 = tx_outputs tx2 ->
  tx_timestamp tx1 = tx_timestamp tx2 ->
  tx_txid tx1 = tx_txid tx2 ->
  fst (add_tx self tx1) = fst (add_tx self tx2)
  /\ chain (snd (add_tx self tx1)) = chain (snd (add_tx self tx2))
  /\ utxos (snd (add_tx self tx1)) = utxos (snd (add_tx self tx2))
  /\ difficulty (snd (add_tx self tx1)) = difficulty (snd (add_tx self tx2))
  /\ (fst (add_tx self tx1) = false ->
        snd (add_tx self tx1) = self /\ snd (add_tx self tx2) = self)
  /\ (fst (add_tx self tx1) = true ->
        mempool (snd (add_tx self tx1)) = (mempool self ++ [tx1])%list
        /\ mempool (snd (add_tx self tx2)) = (mempool self ++ [tx2])%list).
Proof.
  intros Hi Ho _ _. unfold add_tx.
  rewrite (verify_tx_same_content self tx1 tx2 Hi Ho).
  destruct (verify_tx self tx2); cbn [fst snd chain utxos difficulty mempool];
    repeat split; try reflexivity; discriminate.
Qed.

Lemma add_tx_ignores_signature_witness :
  tx_inputs unsigned_spend = tx_inputs forged_spend
  /\ tx_outputs unsigned_spend = tx_outputs forged_spend
  /\ tx_timestamp unsigned_spend = tx_timestamp forged_spend
  /\ tx_txid unsigned_spend = tx_txid forged_spend
  /\ fst (add_tx (funded 3) unsigned_spend) = fst (add_tx (funded 3) forged_spend)
  /\ chain (snd (add_tx (funded 3) unsigned_spend))
     = chain (snd (add_tx (funded 3) forged_spend))
  /\ utxos (snd (add_tx (funded 3) unsigned_spend))
     = utxos (snd (add_tx (funded 3) forged_spend))
  /\ difficulty (snd (add_tx (funded 3) unsigned_spend))
     = difficulty (snd (add_tx (funded 3) forged_spend))
  /\ (fst (add_tx (funded 3) unsigned_spend) = false ->
        snd (add_tx (funded 3) unsigned_spend) = funded 3
        /\ snd (add_tx (funded 3) forged_spend) = funded 3)
  /\ (fst (add_tx (funded 3) unsigned_spend) = true ->
        mempool (snd (add_tx (funded 3) unsigned_spend))
        = (mempool (funded 3) ++ [unsigned_spend])%list
        /\ mempool (snd (add_tx (funded 3) forged_spend))
           = (mempool (funded 3) ++ [forged_spend])%list).
Proof.
  do 4 (split; [reflexivity|]).
  exact (add_tx_ignores_signature (funded 3) unsigned_spend forged_spend
           eq_refl eq_refl eq_refl eq_refl).
Defined.

(** C6, as stated, fails: both transactions are accepted, and the two
    resulting ledgers differ, each holding the transaction it was given. *)
Lemma add_tx_keeps_signature :
  fst (add_tx (funded 3) unsigned_spend) = true
  /\ fst (add_tx (funded 3) forged_spend) = true
  /\ snd (add_tx (funded 3) unsigned_spend) <> snd (add_tx (funded 3) forged_spend).
Proof.
  split; [vm_compute; reflexivity|]. split; [vm_compute; reflexivity|].
  intros H. apply (f_equal mempool) in H. vm_compute in H. discriminate.
Qed.

(** ** The transaction builder *)

Lemma select_inputs_none_owned (addr : string) (req : Q) (items : UtxoSet)
      (ins : list TxInput) (t : Q) :
  (forall item, In item items -> utxo_address (snd item) <> addr) ->
  select_inputs addr req items ins t = (ins, t).
Proof.
  revert ins t. induction items as [|[k u] rest IH]; intros ins t H; simpl;
    [reflexivity|].
  destruct (String.eqb (utxo_address u) addr) eqn:E.
  - apply String.eqb_eq in E. exfalso.
    apply (H (k, u)); [left; reflexivity|exact E].
  - apply IH. intros item Hin. apply H. right. exact Hin.
Qed.

Lemma select_inputs_total_grows (addr : string) (req : Q) (items : UtxoSet)
      (ins : list TxInput) (t : Q) :
  (forall item, In item items -> utxo_address (snd item) = addr ->
                0 < utxo_amount (snd item)) ->
  t <= snd (select_inputs addr req items ins t).
Proof.
  revert ins t. induction items as [|[k u] rest IH]; intros ins t H; simpl;
    [lra|].
  assert (Hrest : forall item, In item rest -> utxo_address (snd item) = addr ->
                               0 < utxo_amount (snd item))
    by (intros item Hin; apply H; right; exact Hin).
  destruct (String.eqb (utxo_address u) addr) eqn:E.
  - apply String.eqb_eq in E.
    pose proof (H (k, u) (or_introl eq_refl) E) as Hpos. simpl in Hpos.
    destruct (Qle_bool req (t + utxo_amount u)); simpl.
    + lra.
    + pose proof (IH (ins ++ [{| in_txid := utxo_txid u; in_vout := utxo_vout u |}])%list
                     (t + utxo_amount u) Hrest). lra.
  - apply IH. exact Hrest.
Qed.

Lemma select_inputs_total_positive (addr : string) (req : Q) (items : UtxoSet)
      (ins : list TxInput) (t : Q) :
  (forall item, In item items -> utxo_address (snd item) = addr ->
                0 < utxo_amount (snd item)) ->
  0 <= t ->
  (exists item, In item items /\ utxo_address (snd item) = addr) ->
  0 < snd (select_inputs addr req items ins t).
Proof.
  revert ins t. induction items as [|[k u] rest IH]; intros ins t H Ht [item [Hin Ho]];
    [destruct Hin|].
  assert (Hrest : forall item, In item rest -> utxo_address (snd item) = addr ->
                               0 < utxo_amount (snd item))
    by (intros it Hi; apply H; right; exact Hi).
  simpl. destruct (String.eqb (utxo_address u) addr) eqn:E.
  - apply String.eqb_eq in E.
    pose proof (H (k, u) (or_introl eq_refl) E) as Hpos. simpl in Hpos.
    destruct (Qle_bool req (t + utxo_amount u)); simpl.
    + lra.
    + pose proof (select_inputs_total_grows addr req rest
                    (ins ++ [{| in_txid := utxo_txid u; in_vout := utxo_vout u |}])%list
                    (t + utxo_amount u) Hrest). lra.
  - destruct Hin as [<-|Hin].
    + simpl in Ho. apply String.eqb_neq in E. contradiction.
    + apply IH; [exact Hrest|exact Ht|]. exists item. split; assumption.
Qed.

Section Builder.
Context {R : Runtime}.

Lemma create_tx_none_iff (w : Wallet) (s : Blockchain) (recipients : list (string * Q))
      (now : Q) :
  create_tx w s recipients now = None
  <-> snd (select_inputs (address w) (py_sum (map snd recipients)) (utxos s) [] 0) == 0.
Proof.
  unfold create_tx.
  destruct (select_inputs (address w) (py_sum (map snd recipients)) (utxos s) [] 0)
    as [ins t]. cbn [snd].
  destruct (Qeq_bool t 0) eqn:E.
  - apply Qeq_bool_iff in E. tauto.
  - split; [discriminate|]. intros Ht. apply Qeq_bool_iff in Ht. congruence.
Qed.

(** C7, amended. When every UTXO of the sender in the store has a
    strictly positive amount, [create_tx] returns [None] exactly when the
    sender owns no UTXO; a sender who owns one gets a transaction whatever
    the requested amounts, covered or not. *)
Theorem create_tx_none_iff_no_utxo (w : Wallet) (s : Blockchain)
        (recipients : list (string * Q)) (now : Q) :
  (forall item, In item (utxos s) -> utxo_address (snd item) = address w ->
                0 < utxo_amount (snd item)) ->
  (create_tx w s recipients now = None <-> ~ owns_utxo w s)
  /\ (owns_utxo w s -> exists tx, create_tx w s recipients now = Some tx).
Proof.
  intros Hpos.
  assert (Hiff : create_tx w s recipients now = None <-> ~ owns_utxo w s).
  { rewrite create_tx_none_iff. split.
    - intros Hz Hown.
      pose proof (select_inputs_total_positive (address w)
                    (py_sum (map snd recipients)) (utxos s) [] 0 Hpos
                    ltac:(lra) Hown). lra.
    - intros Hno. rewrite select_inputs_none_owned; [reflexivity|].
      intros item Hin Ha. apply Hno. exists item. split; assumption. }
  split; [exact Hiff|].
  intros Hown. destruct (create_tx w s recipients now) as [tx|] eqn:E.
  - exists tx. reflexivity.
  - exfalso. exact (proj1 Hiff eq_refl Hown).
Qed.
End Builder.

(** The sender of [funded 3] owns 1.5 and asks for 5: a transaction is
    built all the same. *)
Lemma create_tx_none_iff_no_utxo_witness :
  (forall item, In item (utxos (funded 3)) -> utxo_address (snd item) = address alice ->
                0 < utxo_amount (snd item))
  /\ (@create_tx plain_runtime alice (funded 3) [("sim-bob", 5 # 1)] (17 # 1) = None
      <-> ~ owns_utxo alice (funded 3))
  /\ (owns_utxo alice (funded 3) ->
      exists tx, @create_tx plain_runtime alice (funded 3) [("sim-bob", 5 # 1)] (17 # 1)
                 = Some tx).
Proof.
  assert (H : forall item, In item (utxos (funded 3)) ->
                utxo_address (snd item) = address alice ->
                0 < utxo_amount (snd item)).
  { intros item [<-|[]] _. vm_compute. reflexivity. }
  split; [exact H|].
  exact (@create_tx_none_iff_no_utxo plain_runtime alice (funded 3)
           [("sim-bob", 5 # 1)] (17 # 1) H).
Defined.

(** C7, as stated, fails: after [genesis(alice, 0)] the sender owns a UTXO
    and [create_tx] returns [None]. *)
Lemma create_tx_none_with_zero_utxo :
  owns_utxo alice zero_funded
  /\ @create_tx plain_runtime alice zero_funded [("sim-bob", 3 # 10)] (17 # 1) = None
  /\ ~ (@create_tx plain_runtime alice zero_funded [("sim-bob", 3 # 10)] (17 # 1) = None
        <-> ~ owns_utxo alice zero_funded).
Proof.
  assert (Hown : owns_utxo alice zero_funded).
  { eexists. split; [left; reflexivity|reflexivity]. }
  assert (Hnone : @create_tx plain_runtime alice zero_funded [("sim-bob", 3 # 10)] (17 # 1)
                  = None) by (vm_compute; reflexivity).
  split; [exact Hown|]. split; [exact Hnone|].
  intros [Hto _]. exact (Hto Hnone Hown).
Qed.

(** ** The change rule and the genesis scenario *)

Section Scenario.
Context {R : Runtime}.
Variables (A B : Wallet) (d : Z) (now : Q).

Lemma scenario_change :
  change_outputs A (0 + (15 # 10)) (py_sum [3 # 10])
  = [{| out_address := address A; out_amount := 11999 # 10000 |}].
Proof. reflexivity. Qed.

Lemma scenario_create :
  create_tx A (genesis (new_blockchain d) A (15 # 10)) [(address B, 3 # 10)] now
  = Some (scenario_tx A B now).
Proof.
  unfold create_tx.
  change (utxos (genesis (new_blockchain d) A (15 # 10)))
    with [(("genesis1", 0%Z), mkUTXO "genesis1" 0 (address A) (15 # 10))].
  cbn [select_inputs utxo_address map snd]. rewrite String.eqb_refl.
  cbn [utxo_amount utxo_txid utxo_vout app].
  change (Qle_bool (py_sum [3 # 10]) (0 + (15 # 10))) with true.
  cbv beta iota zeta.
  change (Qeq_bool (0 + (15 # 10)) 0) with false. cbv beta iota zeta.
  rewrite scenario_change. reflexivity.
Qed.

Lemma scenario_add_tx :
  add_tx (genesis (new_blockchain d) A (15 # 10)) (scenario_tx A B now)
  = (true, {| chain := [];
              utxos := [(("genesis1", 0%Z), mkUTXO "genesis1" 0 (address A) (15 # 10))];
              difficulty := d;
              mempool := [scenario_tx A B now] |}).
Proof. reflexivity. Qed.

Lemma scenario_applied :
  apply_tx_utxos [(("genesis1", 0%Z), mkUTXO "genesis1" 0 (address A) (15 # 10))]
                 (scenario_tx A B now)
  = [((tx_txid (scenario_tx A B now), 0%Z),
      mkUTXO (tx_txid (scenario_tx A B now)) 0 (address B) (3 # 10));
     ((tx_txid (scenario_tx A B now), 1%Z),
      mkUTXO (tx_txid (scenario_tx A B now)) 1 (address A) (11999 # 10000))].
Proof.
  unfold apply_tx_utxos.
  change (fold_left spend_input (tx_inputs (scenario_tx A B now))
            [(("genesis1", 0%Z), mkUTXO "genesis1" 0 (address A) (15 # 10))])
    with (@nil (OutputRef * UTXO)).
  generalize (tx_txid (scenario_tx A B now)). intros T.
  cbn [tx_outputs scenario_tx add_outputs Z.add Pos.add].
  unfold dict_set at 2. cbn [dict_mem dict_get app].
  unfold dict_set, dict_mem. cbn [dict_get]. unfold ref_eqb. cbn [fst snd].
  rewrite String.eqb_refl. cbn [Z.eqb andb app]. reflexivity.
Qed.


End Scenario.



(** ** Duplicated inputs *)



Section DuplicatedInputs.
Context {R : Runtime}.

End DuplicatedInputs.


(** ** Export *)

Section Exporter.
Context {R : Runtime}.


End Exporter.

(** ** Two pending spends of one output *)

(** C1. Two transactions built by [create_tx] on the same ledger both spend
    the genesis output; [add_tx] accepts both, and mining them raises the
    total of the UTXO store from 1.5 to 2.9998. *)
Theorem double_spend_in_one_block :
  exists tx1 tx2,
    demo_tx 1 = Some tx1 /\ demo_tx2 1 = Some tx2
    /\ tx_inputs tx1 = [{| in_txid := "genesis1"; in_vout := 0 |}]
    /\ tx_inputs tx2 = [{| in_txid := "genesis1"; in_vout := 0 |}]
    /\ add_tx (funded 1) tx1 = (true, demo_pending 1)
    /\ add_tx (demo_pending 1) tx2 = (true, double_pending 1)
    /\ @mine_block plain_runtime 60 (double_pending 1) miner demo_now
       = Some (double_mined 60 1)
    /\ total_value (double_pending 1) == 15 # 10
    /\ total_value (double_mined 60 1) == 29998 # 10000
    /\ total_value (double_pending 1) < total_value (double_mined 60 1).
Proof.
  eexists. eexists.
  split; [vm_compute; reflexivity|]. split; [vm_compute; reflexivity|].
  split; [reflexivity|]. split; [reflexivity|].
  split; [vm_compute; reflexivity|]. split; [vm_compute; reflexivity|].
  split; [vm_compute; reflexivity|].
  split; [vm_compute; reflexivity|]. split; vm_compute; reflexivity.
Qed.

(** * Further properties of the ledger *)

(** ** Dictionaries: keys and entries *)

Section DictEntries.
Context {K V : Type} (eqb : K -> K -> bool).
Hypothesis eqb_eq : forall a b, eqb a b = true <-> a = b.

Lemma dict_get_none_iff (k : K) (d : list (K * V)) :
  dict_get eqb k d = None <-> ~ In k (map fst d).
Proof.
  induction d as [|[k' v] d IH]; simpl; [tauto|].
  destruct (eqb k k') eqn:E.
  - apply eqb_eq in E. subst k'. split; [discriminate|]. intros H. exfalso. auto.
  - rewrite IH. split.
    + intros H [Heq|Hin]; [|auto]. subst k'.
      rewrite (eqb_refl_true _ eqb_eq) in E. discriminate.
    + intros H Hin. auto.
Qed.

Lemma dict_get_in (k : K) (v : V) (d : list (K * V)) :
  dict_get eqb k d = Some v -> In (k, v) d.
Proof.
  induction d as [|[k' v'] d IH]; simpl; [discriminate|].
  destruct (eqb k k') eqn:E.
  - apply eqb_eq in E. subst k'. intros H. inversion H. left. reflexivity.
  - intros H. right. apply IH. exact H.
Qed.


Lemma dict_del_in (k : K) (p : K * V) (d : list (K * V)) :
  In p (dict_del eqb k d) -> In p d.
Proof.
  induction d as [|[k' v] d IH]; simpl; [tauto|].
  destruct (eqb k k'); simpl; intros H; [right; auto|].
  destruct H as [H|H]; [left; exact H | right; auto].
Qed.

Lemma dict_del_keys (k : K) (d : list (K * V)) :
  NoDup (map fst d) -> NoDup (map fst (dict_del eqb k d)).
Proof.
  induction d as [|[k' v] d IH]; simpl; intros Hnd; [constructor|].
  inversion Hnd as [|? ? Hnotin Hnd']; subst.
  destruct (eqb k k'); simpl; [auto|].
  constructor; [|auto].
  intros Hin. apply Hnotin. apply in_map_iff in Hin.
  destruct Hin as [p [Hp Hin]]. apply in_map_iff. exists p.
  split; [exact Hp|]. apply (dict_del_in k). exact Hin.
Qed.

Lemma dict_replace_keys (k : K) (v : V) (d : list (K * V)) :
  map fst (dict_replace eqb k v d) = map fst d.
Proof.
  induction d as [|[k' v'] d IH]; simpl; [reflexivity|].
  destruct (eqb k k'); simpl; rewrite IH; reflexivity.
Qed.

Lemma dict_replace_in (k : K) (v : V) (p : K * V) (d : list (K * V)) :
  In p (dict_replace eqb k v d) -> In p d \/ p = (k, v).
Proof.
  induction d as [|[k' v'] d IH]; simpl; [tauto|].
  destruct (eqb k k') eqn:E; simpl; intros [H|H].
  - apply eqb_eq in E. subst k'. right. symmetry. exact H.
  - destruct (IH H); auto.
  - left. left. exact H.
  - destruct (IH H); auto.
Qed.

Lemma dict_set_in (k : K) (v : V) (p : K * V) (d : list (K * V)) :
  In p (dict_set eqb k v d) -> In p d \/ p = (k, v).
Proof.
  unfold dict_set. destruct (dict_mem eqb k d).
  - apply dict_replace_in.
  - intros H. apply in_app_or in H. destruct H as [H|[H|[]]]; auto.
Qed.

Lemma NoDup_snoc (k : K) (l : list K) :
  NoDup l -> ~ In k l -> NoDup (l ++ [k]).
Proof.
  induction l as [|a l IH]; simpl; intros Hnd Hk.
  - constructor; [tauto|constructor].
  - inversion Hnd as [|? ? Ha Hnd']; subst. constructor.
    + intros Hin. apply in_app_or in Hin. destruct Hin as [Hin|[Hin|[]]]; [auto|].
      subst a. auto.
    + apply IH; [exact Hnd'|]. auto.
Qed.

Lemma dict_set_keys (k : K) (v : V) (d : list (K * V)) :
  NoDup (map fst d) -> NoDup (map fst (dict_set eqb k v d)).
Proof.
  intros Hnd. unfold dict_set, dict_mem.
  destruct (dict_get eqb k d) eqn:E.
  - rewrite dict_replace_keys. exact Hnd.
  - rewrite map_app. simpl. apply dict_get_none_iff in E.
    apply NoDup_snoc; assumption.
Qed.
End DictEntries.

(** ** Invariants of reachable ledgers *)

Lemma spend_input_in (u : UtxoSet) (i : TxInput) (item : OutputRef * UTXO) :
  In item (spend_input u i) -> In item u.
Proof.
  unfold spend_input. destruct (dict_mem ref_eqb (input_ref i) u); [|tauto].
  apply dict_del_in.
Qed.

Lemma spend_inputs_in (ins : list TxInput) (u : UtxoSet) (item : OutputRef * UTXO) :
  In item (fold_left spend_input ins u) -> In item u.
Proof.
  revert u. induction ins as [|i rest IH]; intros u; simpl; [tauto|].
  intros H. apply (spend_input_in u i). apply IH. exact H.
Qed.

Lemma spend_input_keys (u : UtxoSet) (i : TxInput) :
  NoDup (map fst u) -> NoDup (map fst (spend_input u i)).
Proof.
  unfold spend_input. destruct (dict_mem ref_eqb (input_ref i) u); [|tauto].
  apply dict_del_keys.
Qed.

Lemma spend_inputs_keys (ins : list TxInput) (u : UtxoSet) :
  NoDup (map fst u) -> NoDup (map fst (fold_left spend_input ins u)).
Proof.
  revert u. induction ins as [|i rest IH]; intros u; simpl; [tauto|].
  intros H. apply IH. apply spend_input_keys. exact H.
Qed.

Lemma add_outputs_in (outs : list TxOutput) (txid : string) (idx : Z) (u : UtxoSet)
      (item : OutputRef * UTXO) :
  In item (add_outputs txid idx outs u) ->
  In item u
  \/ exists (j : nat) (o : TxOutput),
       nth_error outs j = Some o
       /\ item = ((txid, (idx + Z.of_nat j)%Z),
                  utxo_of_output txid (idx + Z.of_nat j) o).
Proof.
  revert idx u. induction outs as [|o rest IH]; intros idx u; simpl; [tauto|].
  intros H. destruct (IH _ _ H) as [Hin|(j & o' & Hj & Hitem)].
  - apply (dict_set_in _ ref_eqb_eq) in Hin. destruct Hin as [Hin|Hin]; [left; exact Hin|].
    right. exists 0%nat, o. split; [reflexivity|].
    rewrite Hin. cbn [Z.of_nat]. rewrite Z.add_0_r. reflexivity.
  - right. exists (S j), o'. split; [exact Hj|].
    rewrite Hitem. rewrite Nat2Z.inj_succ.
    replace (idx + Z.succ (Z.of_nat j))%Z with (idx + 1 + Z.of_nat j)%Z by lia.
    reflexivity.
Qed.

Lemma add_outputs_keys (outs : list TxOutput) (txid : string) (idx : Z) (u : UtxoSet) :
  NoDup (map fst u) -> NoDup (map fst (add_outputs txid idx outs u)).
Proof.
  revert idx u. induction outs as [|o rest IH]; intros idx u; simpl; [tauto|].
  intros H. apply IH. apply (dict_set_keys _ ref_eqb_eq). exact H.
Qed.

Lemma apply_tx_in (u : UtxoSet) (tx : Transaction) (item : OutputRef * UTXO) :
  In item (apply_tx_utxos u tx) -> In item u \/ output_of tx item.
Proof.
  unfold apply_tx_utxos. intros H.
  destruct (add_outputs_in _ _ _ _ _ H) as [Hin|(j & o & Hj & Hitem)].
  - left. apply (spend_inputs_in (tx_inputs tx)). exact Hin.
  - right. exists j, o. split; [exact Hj|]. exact Hitem.
Qed.

Lemma applied_in (txs : list Transaction) (u : UtxoSet) (item : OutputRef * UTXO) :
  In item (fold_left apply_tx_utxos txs u) ->
  In item u \/ exists tx, In tx txs /\ output_of tx item.
Proof.
  revert u. induction txs as [|tx rest IH]; intros u; simpl; [tauto|].
  intros H. destruct (IH _ H) as [Hin|(tx' & Hin & Ho)].
  - destruct (apply_tx_in _ _ _ Hin) as [Hu|Ho]; [left; exact Hu|].
    right. exists tx. split; [left; reflexivity|exact Ho].
  - right. exists tx'. split; [right; exact Hin|exact Ho].
Qed.

Lemma apply_tx_store_ok (u : UtxoSet) (tx : Transaction) :
  store_ok u -> store_ok (apply_tx_utxos u tx).
Proof.
  intros [Hnd Hkey]. split.
  - unfold apply_tx_utxos. apply add_outputs_keys. apply spend_inputs_keys. exact Hnd.
  - intros k v Hin. destruct (apply_tx_in _ _ _ Hin) as [Hu|(j & o & _ & Hitem)].
    + apply Hkey. exact Hu.
    + inversion Hitem. reflexivity.
Qed.

Lemma applied_store_ok (txs : list Transaction) (u : UtxoSet) :
  store_ok u -> store_ok (fold_left apply_tx_utxos txs u).
Proof.
  revert u. induction txs as [|tx rest IH]; intros u; simpl; [tauto|].
  intros H. apply IH. apply apply_tx_store_ok. exact H.
Qed.

Lemma genesis_store_ok (self : Blockchain) (w : Wallet) (amount : Q) :
  store_ok (utxos self) -> store_ok (utxos (genesis self w amount)).
Proof.
  intros [Hnd Hkey]. unfold genesis. cbn [utxos set_utxos]. split.
  - apply (dict_set_keys _ ref_eqb_eq). exact Hnd.
  - intros k v Hin. apply (dict_set_in _ ref_eqb_eq) in Hin. destruct Hin as [Hin|Hin].
    + apply Hkey. exact Hin.
    + inversion Hin. reflexivity.
Qed.

Lemma add_tx_frame (self : Blockchain) (tx : Transaction) :
  chain (snd (add_tx self tx)) = chain self
  /\ utxos (snd (add_tx self tx)) = utxos self
  /\ difficulty (snd (add_tx self tx)) = difficulty self.
Proof. unfold add_tx. destruct (verify_tx self tx); auto. Qed.

Lemma verify_tx_inputs_live (self : Blockchain) (tx : Transaction) (i : TxInput) :
  verify_tx self tx = true -> In i (tx_inputs tx) ->
  dict_mem ref_eqb (input_ref i) (utxos self) = true.
Proof.
  intros Hv Hin. destruct (dict_mem ref_eqb (input_ref i) (utxos self)) eqn:E;
    [reflexivity|].
  unfold verify_tx in Hv. rewrite (resolve_inputs_absent _ _ 0) in Hv; [discriminate|].
  exists i. split; assumption.
Qed.

Section ReachableInvariants.
Context {R : Runtime}.

(** X1. In every reachable ledger the UTXO set has no key twice, and each
    record carries the txid and vout of the key it is stored under. *)
Theorem reachable_store_ok (self : Blockchain) :
  reachable self -> store_ok (utxos self).
Proof.
  induction 1 as [d|self w amount _ IH|self tx _ IH|self fuel w now self' _ IH Hm].
  - split; [constructor|intros k v []].
  - apply genesis_store_ok. exact IH.
  - destruct (add_tx_frame self tx) as (_ & -> & _). exact IH.
  - destruct (mine_block_inv _ _ _ _ _ Hm) as (n & h & _ & ->). cbn [utxos].
    apply applied_store_ok. exact IH.
Qed.

(** X2. In every reachable ledger each block of the chain records a nonce
    that is not negative and the digest of its serialisation with nonce 0
    followed by that nonce, and this digest starts with as many zeros as the
    difficulty of the ledger asks for. *)
Theorem reachable_chain_ok (self : Blockchain) :
  reachable self -> chain_ok self.
Proof.
  induction 1 as [d|self w amount _ IH|self tx _ IH|self fuel w now self' _ IH Hm].
  - intros b [].
  - exact IH.
  - intros b Hb. destruct (add_tx_frame self tx) as (Hc & _ & Hd).
    rewrite Hc in Hb. rewrite Hd. apply IH. exact Hb.
  - destruct (mine_block_inv _ _ _ _ _ Hm) as (n & h & Hpow & ->).
    intros b Hb. cbn [chain difficulty] in *.
    apply in_app_or in Hb. destruct Hb as [Hb|[<-|[]]]; [apply IH; exact Hb|].
    destruct (pow_search_sound _ _ _ _ _ _ Hpow) as (Hn & Hh & Ht).
    cbn [block_hash block_nonce]. repeat split.
    + unfold sealed_block_hash. exact Hh.
    + apply meets_target_leading_zeros. exact Ht.
    + exact Hn.
Qed.

(** X3. Every entry of the UTXO set of a reachable ledger was put there by
    [genesis] (a key ["genesisN"], 0) or is an output of a transaction of a
    block of the chain, stored under that transaction's txid and the index
    of the output, with the address and amount of the output. *)
Theorem reachable_utxo_origin (self : Blockchain) (item : OutputRef * UTXO) :
  reachable self -> In item (utxos self) ->
  from_genesis item \/ from_chain self item.
Proof.
  intros Hr. revert item.
  induction Hr as [d|self w amount _ IH|self tx _ IH|self fuel w now self' _ IH Hm];
    intros item Hin.
  - destruct Hin.
  - unfold genesis in Hin. cbn [utxos set_utxos] in Hin.
    apply (dict_set_in _ ref_eqb_eq) in Hin. destruct Hin as [Hin|Hin].
    + destruct (IH _ Hin) as [Hg|Hc]; [left; exact Hg|right; exact Hc].
    + left. exists (Z.of_nat (List.length (chain self)) + 1)%Z, (address w), amount.
      split; [lia|exact Hin].
  - destruct (add_tx_frame self tx) as (Hc & Hu & _). rewrite Hu in Hin.
    destruct (IH _ Hin) as [Hg|(b & tx' & Hb & Htx & Ho)]; [left; exact Hg|].
    right. exists b, tx'. rewrite Hc. auto.
  - destruct (mine_block_inv _ _ _ _ _ Hm) as (n & h & _ & ->).
    cbn [utxos chain] in *.
    destruct (applied_in _ _ _ Hin) as [Hu|(tx & Htx & Ho)].
    + destruct (IH _ Hu) as [Hg|(b & tx' & Hb & Htx & Ho)]; [left; exact Hg|].
      right. exists b, tx'. split; [apply in_or_app; left; exact Hb|auto].
    + right. eexists. exists tx. split; [apply in_or_app; right; left; reflexivity|].
      split; [exact Htx|exact Ho].
Qed.

(** X4. In every reachable ledger all inputs of all pending transactions
    name keys that are in the UTXO set. *)
Theorem reachable_pending_inputs_live (self : Blockchain) (tx : Transaction)
        (i : TxInput) :
  reachable self -> In tx (mempool self) -> In i (tx_inputs tx) ->
  dict_mem ref_eqb (input_ref i) (utxos self) = true.
Proof.
  intros Hr. revert tx i.
  induction Hr as [d|self w amount _ IH|self tx0 _ IH|self fuel w now self' _ IH Hm];
    intros tx i Htx Hi.
  - destruct Htx.
  - unfold genesis. cbn [utxos set_utxos].
    set (k := ("genesis" ++ str_int (Z.of_nat (List.length (chain self)) + 1), 0%Z)).
    destruct (ref_eqb (input_ref i) k) eqn:E.
    + apply ref_eqb_eq in E. rewrite E. apply (dict_mem_set_same _ ref_eqb_eq).
    + rewrite (dict_mem_set_other _ ref_eqb_eq).
      * apply (IH tx); assumption.
      * intros Heq. rewrite Heq, (eqb_refl_true _ ref_eqb_eq) in E. discriminate.
  - unfold add_tx in *. destruct (verify_tx self tx0) eqn:Hv; cbn [snd mempool utxos] in *.
    + apply in_app_or in Htx. destruct Htx as [Htx|[<-|[]]].
      * apply (IH tx); assumption.
      * apply (verify_tx_inputs_live self tx0); assumption.
    + apply (IH tx); assumption.
  - destruct (mine_block_inv _ _ _ _ _ Hm) as (n & h & _ & ->). destruct Htx.
Qed.
End ReachableInvariants.

Lemma demo_mined_reachable : @reachable plain_runtime (demo_mined 20 1).
Proof.
  assert (Hp : @reachable plain_runtime (demo_pending 1)).
  { unfold demo_pending. destruct (demo_tx 1).
    - apply reach_add_tx. apply reach_genesis. apply reach_new.
    - apply reach_genesis. apply reach_new. }
  apply (reach_mine_block (demo_pending 1) 20 miner demo_now); [exact Hp|].
  vm_compute. reflexivity.
Qed.

Lemma reachable_store_ok_witness :
  @reachable plain_runtime (demo_mined 20 1) /\ store_ok (utxos (demo_mined 20 1)).
Proof.
  split; [exact demo_mined_reachable|].
  exact (@reachable_store_ok plain_runtime (demo_mined 20 1) demo_mined_reachable).
Defined.

Lemma reachable_chain_ok_witness :
  @reachable plain_runtime (demo_mined 20 1) /\ @chain_ok plain_runtime (demo_mined 20 1).
Proof.
  split; [exact demo_mined_reachable|].
  exact (@reachable_chain_ok plain_runtime (demo_mined 20 1) demo_mined_reachable).
Defined.

Lemma reachable_utxo_origin_witness :
  @reachable plain_runtime (demo_mined 20 1)
  /\ In demo_first_utxo (utxos (demo_mined 20 1))
  /\ (from_genesis demo_first_utxo \/ from_chain (demo_mined 20 1) demo_first_utxo).
Proof.
  assert (Hin : In demo_first_utxo (utxos (demo_mined 20 1)))
    by (vm_compute; left; reflexivity).
  split; [exact demo_mined_reachable|]. split; [exact Hin|].
  exact (@reachable_utxo_origin plain_runtime (demo_mined 20 1) demo_first_utxo
           demo_mined_reachable Hin).
Defined.

Lemma demo_pending_reachable : @reachable plain_runtime (demo_pending 1).
Proof.
  unfold demo_pending. destruct (demo_tx 1).
  - apply reach_add_tx. apply reach_genesis. apply reach_new.
  - apply reach_genesis. apply reach_new.
Qed.

Lemma reachable_pending_inputs_live_witness :
  @reachable plain_runtime (demo_pending 1)
  /\ In demo_pending_tx (mempool (demo_pending 1))
  /\ In {| in_txid := "genesis1"; in_vout := 0 |} (tx_inputs demo_pending_tx)
  /\ dict_mem ref_eqb (input_ref {| in_txid := "genesis1"; in_vout := 0 |})
              (utxos (demo_pending 1)) = true.
Proof.
  assert (Htx : In demo_pending_tx (mempool (demo_pending 1)))
    by (vm_compute; left; reflexivity).
  assert (Hi : In {| in_txid := "genesis1"; in_vout := 0 |} (tx_inputs demo_pending_tx))
    by (vm_compute; left; reflexivity).
  split; [exact demo_pending_reachable|]. split; [exact Htx|]. split; [exact Hi|].
  exact (@reachable_pending_inputs_live plain_runtime (demo_pending 1) demo_pending_tx
           {| in_txid := "genesis1"; in_vout := 0 |} demo_pending_reachable Htx Hi).
Defined.

(** ** Admission, in full *)



Lemma verify_tx_only_utxos (s1 s2 : Blockchain) (tx : Transaction) :
  utxos s1 = utxos s2 -> verify_tx s1 tx = verify_tx s2 tx.
Proof. intros H. unfold verify_tx. rewrite H. reflexivity. Qed.

Lemma add_all_frame (txs : list Transaction) (self : Blockchain) :
  chain (add_all self txs) = chain self
  /\ utxos (add_all self txs) = utxos self
  /\ difficulty (add_all self txs) = difficulty self
  /\ mempool (add_all self txs)
     = (mempool self ++ filter (verify_tx self) txs)%list.
Proof.
  unfold add_all. revert self. induction txs as [|tx rest IH]; intros self; simpl.
  - rewrite app_nil_r. auto.
  - destruct (IH (snd (add_tx self tx))) as (Hc & Hu & Hd & Hm).
    destruct (add_tx_frame self tx) as (Hc' & Hu' & Hd').
    rewrite Hc, Hu, Hd, Hm, Hc', Hu', Hd'.
    repeat split.
    rewrite (filter_ext _ _ (fun t => verify_tx_only_utxos _ self t Hu')).
    unfold add_tx. destruct (verify_tx self tx); cbn [snd mempool].
    + rewrite <- app_assoc. reflexivity.
    + reflexivity.
Qed.

(** X6. Pending transactions play no part in admission: after any list of
    transactions has gone through [add_tx], a further transaction gets the
    answer it would have had before them, and the mempool holds, after what
    it held, those of the list that [verify_tx] accepts on the first ledger,
    in the order given. *)
Theorem add_tx_ignores_mempool (self : Blockchain) (txs : list Transaction)
        (tx : Transaction) :
  fst (add_tx (add_all self txs) tx) = fst (add_tx self tx)
  /\ utxos (add_all self txs) = utxos self
  /\ mempool (add_all self txs)
     = (mempool self ++ filter (fun t => fst (add_tx self t)) txs)%list.
Proof.
  destruct (add_all_frame txs self) as (_ & Hu & _ & Hm).
  split; [|split; [exact Hu|]].
  - unfold add_tx. rewrite (verify_tx_only_utxos _ self tx Hu).
    destruct (verify_tx self tx); reflexivity.
  - rewrite Hm. f_equal. apply filter_ext. intros t. unfold add_tx.
    destruct (verify_tx self t); reflexivity.
Qed.

(** ** What mining leaves alone *)

Lemma applied_untouched (txs : list Transaction) (u : UtxoSet) (k : OutputRef) :
  (forall tx, In tx txs -> ~ consumes tx k /\ ~ creates tx k) ->
  dict_get ref_eqb k (fold_left apply_tx_utxos txs u) = dict_get ref_eqb k u.
Proof.
  revert u. induction txs as [|tx rest IH]; intros u H; simpl; [reflexivity|].
  rewrite IH by (intros tx' Hin; apply H; right; exact Hin).
  destruct (H tx (or_introl eq_refl)) as [Hnc Hncr].
  rewrite apply_tx_not_created by exact Hncr.
  apply spend_inputs_untouched. intros i Hi Hk. apply Hnc. exists i. split; assumption.
Qed.

Section MiningFrame.
Context {R : Runtime}.

(** X7. A completed [mine_block] leaves the difficulty and the earlier
    blocks as they were, appends one block that records the timestamp, the
    miner's address and the mempool as it stood, and leaves untouched the
    binding (or absence) of every key that no pending transaction names as
    an input or as one of its outputs. *)
Theorem mine_block_frame (fuel : nat) (self : Blockchain) (w : Wallet) (now : string)
        (self' : Blockchain) :
  mine_block fuel self w now = Some self' ->
  difficulty self' = difficulty self
  /\ (exists b, chain self' = (chain self ++ [b])%list
                /\ block_timestamp b = now /\ block_miner b = address w
                /\ block_tx b = mempool self)
  /\ forall k, (forall tx, In tx (mempool self) -> ~ consumes tx k /\ ~ creates tx k) ->
               dict_get ref_eqb k (utxos self') = dict_get ref_eqb k (utxos self).
Proof.
  intros H. destruct (mine_block_inv _ _ _ _ _ H) as (n & h & _ & ->).
  cbn [difficulty chain utxos]. split; [reflexivity|]. split.
  - eexists. split; [reflexivity|]. cbn. auto.
  - intros k Hk. apply applied_untouched. exact Hk.
Qed.
End MiningFrame.

Lemma mine_block_frame_witness :
  @mine_block plain_runtime 20 (demo_pending 1) miner demo_now = Some (demo_mined 20 1)
  /\ difficulty (demo_mined 20 1) = difficulty (demo_pending 1)
  /\ (exists b, chain (demo_mined 20 1) = (chain (demo_pending 1) ++ [b])%list
                /\ block_timestamp b = demo_now /\ block_miner b = address miner
                /\ block_tx b = mempool (demo_pending 1))
  /\ forall k, (forall tx, In tx (mempool (demo_pending 1)) ->
                           ~ consumes tx k /\ ~ creates tx k) ->
               dict_get ref_eqb k (utxos (demo_mined 20 1))
               = dict_get ref_eqb k (utxos (demo_pending 1)).
Proof.
  assert (H : @mine_block plain_runtime 20 (demo_pending 1) miner demo_now
              = Some (demo_mined 20 1)) by (vm_compute; reflexivity).
  split; [exact H|].
  exact (@mine_block_frame plain_runtime 20 (demo_pending 1) miner demo_now
           (demo_mined 20 1) H).
Defined.

(** ** Conservation of value for one transaction *)













(** ** Digests as text *)

Lemma string_length_append (a b : string) :
  String.length (a ++ b) = (String.length a + String.length b)%nat.
Proof. induction a as [|c a IH]; simpl; [reflexivity|]. rewrite IH. reflexivity. Qed.

Lemma hex_of_length (n : nat) (x : Z) : String.length (SHA256.hex_of n x) = n.
Proof. induction n as [|n IH]; simpl; [reflexivity|]. rewrite IH. reflexivity. Qed.

Lemma sha256_hexdigest_length (s : string) : String.length (SHA256.hexdigest s) = 64%nat.
Proof.
  unfold SHA256.hexdigest. cbv zeta.
  generalize (fold_left SHA256.compress
                (SHA256.chunks
                   (List.length
                      (SHA256.words (List.length (SHA256.pad (SHA256.bytes_of_string s)))
                                    (SHA256.pad (SHA256.bytes_of_string s))))
                   (SHA256.words (List.length (SHA256.pad (SHA256.bytes_of_string s)))
                                 (SHA256.pad (SHA256.bytes_of_string s))))
                SHA256.init).
  intros r. unfold SHA256.digest_words. cbn [map String.concat].
  rewrite !string_length_append, !hex_of_length. reflexivity.
Qed.

Lemma str_repeat_length (c : ascii) (n : nat) : String.length (str_repeat c n) = n.
Proof. induction n as [|n IH]; simpl; [reflexivity|]. rewrite IH. reflexivity. Qed.

Lemma prefix_length (p h : string) :
  String.prefix p h = true -> (String.length p <= String.length h)%nat.
Proof.
  revert h. induction p as [|c p IH]; intros h; [simpl; lia|].
  destruct h as [|c' h]; [discriminate|].
  rewrite prefix_cons. destruct (ascii_dec c c'); [|discriminate].
  intros H. apply IH in H. simpl. lia.
Qed.

Lemma substring_length (n : nat) (s : string) :
  String.length (substring 0 n s) = Nat.min n (String.length s).
Proof.
  revert s. induction n as [|n IH]; intros s.
  - destruct s; reflexivity.
  - destruct s as [|c s]; [reflexivity|]. simpl. rewrite IH. reflexivity.
Qed.

(** ** Mining at the ends of the difficulty range *)

Lemma pow_search_never (fuel : nat) (bj : string) (d n0 : Z) :
  (forall n, meets_target d (hash_try bj n) = false) ->
  pow_search fuel bj d n0 = None.
Proof.
  intros H. revert n0. induction fuel as [|fuel IH]; intros n0; simpl; [reflexivity|].
  rewrite H. apply IH.
Qed.

Section MiningEdges.
Context {R : Runtime}.

(** X9. With a difficulty of 0 or less the first attempt wins: [mine_block]
    completes whatever its bound (of at least one attempt), and the block
    records nonce 0 and the digest of the serialisation followed by ["0"]. *)
Theorem mine_block_no_difficulty (fuel : nat) (self : Blockchain) (w : Wallet)
        (now : string) :
  (difficulty self <= 0)%Z ->
  exists self' b,
    mine_block (S fuel) self w now = Some self'
    /\ chain self' = (chain self ++ [b])%list
    /\ block_nonce b = 0%Z
    /\ block_hash b
       = sha256_hexdigest (block_json_of now (mempool self) (address w) ++ "0").
Proof.
  intros Hd. unfold mine_block. cbn [pow_search].
  assert (Hm : forall h, meets_target (difficulty self) h = true).
  { intros h. unfold meets_target, startswith, str_mul.
    replace (Z.to_nat (difficulty self)) with 0%nat by lia.
    destruct h; reflexivity. }
  rewrite Hm. eexists. eexists. split; [reflexivity|].
  destruct (fold_apply_tx_frame (mempool self) self) as (Hc & _).
  cbn [chain block_nonce block_hash]. rewrite Hc.
  split; [reflexivity|]. split; [reflexivity|].
  unfold hash_try. change (str_int 0) with "0". reflexivity.
Qed.

(** X10. With a difficulty above 64 no digest can win, a digest having 64
    characters: [mine_block] never completes, whatever the bound on its
    attempts. *)
Theorem mine_block_difficulty_over_64 (fuel : nat) (self : Blockchain) (w : Wallet)
        (now : string) :
  (64 < difficulty self)%Z -> mine_block fuel self w now = None.
Proof.
  intros Hd. unfold mine_block. rewrite pow_search_never; [reflexivity|].
  intros n. destruct (meets_target (difficulty self) _) eqn:E; [|reflexivity].
  unfold meets_target, startswith, str_mul in E. apply prefix_length in E.
  rewrite str_repeat_length in E. unfold hash_try, sha256_hexdigest in E.
  rewrite sha256_hexdigest_length in E. lia.
Qed.

(** X11. [mine_block] does not refuse an empty mempool: when it completes,
    the block it appends holds no transaction and the UTXO set is the one
    it found. *)
Theorem mine_block_empty_mempool (fuel : nat) (self : Blockchain) (w : Wallet)
        (now : string) (self' : Blockchain) :
  mempool self = [] ->
  mine_block fuel self w now = Some self' ->
  utxos self' = utxos self
  /\ mempool self' = []
  /\ exists b, chain self' = (chain self ++ [b])%list /\ block_tx b = [].
Proof.
  intros He H. destruct (mine_block_inv _ _ _ _ _ H) as (n & h & _ & ->).
  rewrite He. cbn. split; [reflexivity|]. split; [reflexivity|].
  eexists. split; reflexivity.
Qed.
End MiningEdges.

Lemma mine_block_no_difficulty_witness :
  (difficulty free_mining <= 0)%Z
  /\ exists self' b,
       @mine_block plain_runtime 1 free_mining miner demo_now = Some self'
       /\ chain self' = (chain free_mining ++ [b])%list
       /\ block_nonce b = 0%Z
       /\ block_hash b
          = sha256_hexdigest
              (@block_json_of plain_runtime demo_now (mempool free_mining) (address miner)
               ++ "0").
Proof.
  assert (H : (difficulty free_mining <= 0)%Z) by (vm_compute; discriminate).
  split; [exact H|].
  exact (@mine_block_no_difficulty plain_runtime 0 free_mining miner demo_now H).
Defined.

Lemma mine_block_difficulty_over_64_witness :
  (64 < difficulty unminable)%Z
  /\ @mine_block plain_runtime 1000 unminable miner demo_now = None.
Proof.
  assert (H : (64 < difficulty unminable)%Z) by (vm_compute; reflexivity).
  split; [exact H|].
  exact (@mine_block_difficulty_over_64 plain_runtime 1000 unminable miner demo_now H).
Defined.

Lemma mine_block_empty_mempool_witness :
  mempool (funded 0) = []
  /\ @mine_block plain_runtime 1 (funded 0) miner demo_now = Some funded_mined
  /\ utxos funded_mined = utxos (funded 0)
  /\ mempool funded_mined = []
  /\ exists b, chain funded_mined = (chain (funded 0) ++ [b])%list /\ block_tx b = [].
Proof.
  assert (H : @mine_block plain_runtime 1 (funded 0) miner demo_now = Some funded_mined)
    by (vm_compute; reflexivity).
  split; [reflexivity|]. split; [exact H|].
  exact (@mine_block_empty_mempool plain_runtime 1 (funded 0) miner demo_now
           funded_mined eq_refl H).
Defined.

(** ** Wallets *)

(** X12. A wallet made without the [ecdsa] package has keys of 64
    characters and an address of 35: ["sim"] and the first 32 characters of
    the public key, itself the digest of the private key. A wallet made with
    the package has an address of 34 characters. So no wallet of one kind has
    the address of a wallet of the other. *)
Theorem wallet_kinds_apart (R1 R2 : Runtime) (sk vk sk' vk' : string) (rnd rnd' : Q) :
  @USE_ECDSA R1 = false -> @USE_ECDSA R2 = true ->
  let fallback := @Wallet_init R1 sk vk rnd in
  let real := @Wallet_init R2 sk' vk' rnd' in
  String.length (private_key fallback) = 64%nat
  /\ public_key fallback = sha256_hexdigest (private_key fallback)
  /\ address fallback = "sim" ++ substring 0 32 (public_key fallback)
  /\ String.length (address fallback) = 35%nat
  /\ String.length (address real) = 34%nat
  /\ address fallback <> address real.
Proof.
  intros H1 H2 fallback real. unfold fallback, real, Wallet_init.
  rewrite H1, H2. cbv beta iota zeta delta [private_key public_key address].
  split; [apply sha256_hexdigest_length|]. split; [reflexivity|].
  split; [reflexivity|].
  assert (Lpub : String.length (sha256_hexdigest (sha256_hexdigest (@repr_float R1 rnd)))
                 = 64%nat) by apply sha256_hexdigest_length.
  assert (Lreal : String.length (SHA256.hexdigest vk') = 64%nat)
    by apply sha256_hexdigest_length.
  revert Lpub Lreal.
  generalize (sha256_hexdigest (sha256_hexdigest (@repr_float R1 rnd))).
  generalize (SHA256.hexdigest vk').
  intros hreal hpub Lpub Lreal.
  assert (L35 : String.length ("sim" ++ substring 0 32 hpub) = 35%nat).
  { rewrite string_length_append, substring_length, Lpub. reflexivity. }
  assert (L34 : String.length (substring 0 34 hreal) = 34%nat).
  { rewrite substring_length, Lreal. reflexivity. }
  split; [exact L35|]. split; [exact L34|].
  intros Heq. rewrite Heq in L35. rewrite L34 in L35. discriminate.
Qed.

Lemma wallet_kinds_apart_witness :
  @USE_ECDSA plain_runtime = false /\ @USE_ECDSA ecdsa_runtime = true
  /\ address (@Wallet_init plain_runtime "sk" "vk" (1 # 2))
     <> address (@Wallet_init ecdsa_runtime "sk" "vk" (1 # 2)).
Proof.
  split; [reflexivity|]. split; [reflexivity|].
  exact (proj2 (proj2 (proj2 (proj2 (proj2
           (wallet_kinds_apart plain_runtime ecdsa_runtime "sk" "vk" "sk" "vk"
              (1 # 2) (1 # 2) eq_refl eq_refl)))))).
Defined.

(** ** The scan of the builder *)




Section BuilderScan.
Context {R : Runtime}.



End BuilderScan.


(** ** A built transaction at admission *)






Section BuiltAdmission.
Context {R : Runtime}.

End BuiltAdmission.


(** ** genesis *)

(** X15. [genesis] binds the key (["genesis" + str(len(chain) + 1)], 0) to
    a UTXO of the wallet's address and the given amount and touches no other
    key, nor the chain, the mempool or the difficulty. A second [genesis]
    before any block is mined uses the same key: it replaces the first
    allocation and adds no entry. *)
Theorem genesis_one_key_per_height (self : Blockchain) (w1 w2 : Wallet) (a1 a2 : Q) :
  let txid := "genesis" ++ str_int (Z.of_nat (List.length (chain self)) + 1) in
  dict_get ref_eqb (txid, 0%Z) (utxos (genesis self w1 a1))
  = Some (mkUTXO txid 0 (address w1) a1)
  /\ (forall k, k <> (txid, 0%Z) ->
        dict_get ref_eqb k (utxos (genesis self w1 a1)) = dict_get ref_eqb k (utxos self))
  /\ chain (genesis self w1 a1) = chain self
  /\ mempool (genesis self w1 a1) = mempool self
  /\ difficulty (genesis self w1 a1) = difficulty self
  /\ dict_get ref_eqb (txid, 0%Z) (utxos (genesis (genesis self w1 a1) w2 a2))
     = Some (mkUTXO txid 0 (address w2) a2)
  /\ map fst (utxos (genesis (genesis self w1 a1) w2 a2))
     = map fst (utxos (genesis self w1 a1)).
Proof.
  intros txid. unfold genesis. cbn [utxos chain mempool difficulty set_utxos].
  fold txid. split; [apply (dict_get_set_same _ ref_eqb_eq)|].
  split; [intros k Hk; apply (dict_get_set_other _ ref_eqb_eq); exact Hk|].
  split; [reflexivity|]. split; [reflexivity|]. split; [reflexivity|].
  split; [apply (dict_get_set_same _ ref_eqb_eq)|].
  unfold dict_set at 1. rewrite (dict_mem_set_same _ ref_eqb_eq).
  apply dict_replace_keys.
Qed.

(** ** export_data and other files *)

Section ExportFrame.
Context {R : Runtime}.

End ExportFrame.


(** ** Strings in JSON *)

Lemma string_forall_app (p : ascii -> bool) (a b : string) :
  string_forall p (a ++ b) = string_forall p a && string_forall p b.
Proof.
  induction a as [|c a IH]; simpl; [reflexivity|].
  rewrite IH, andb_assoc. reflexivity.
Qed.

Lemma json_escape_char_printable (c : ascii) :
  string_forall printable (json_escape_char c) = true.
Proof. destruct c as [[] [] [] [] [] [] [] []]; vm_compute; reflexivity. Qed.

(** X17. A string is written to JSON between two double quotes, and every
    character written is a printable ASCII character (space to tilde),
    whatever the string holds: line breaks, quotes, control and non-ASCII
    characters leave as escapes. *)
Theorem json_string_printable (s : string) :
  string_forall printable (json_string s) = true
  /\ exists body, json_string s = String dquote (body ++ str1 dquote).
Proof.
  split.
  - unfold json_string. cbn [string_forall]. rewrite string_forall_app.
    assert (H : string_forall printable (json_escape s) = true).
    { induction s as [|c s IH]; [reflexivity|]. cbn [json_escape].
      rewrite string_forall_app, json_escape_char_printable, IH. reflexivity. }
    rewrite H. reflexivity.
  - exists (json_escape s). reflexivity.
Qed.

(** ** Key order in JSON objects *)

Lemma string_compare_refl (s : string) : String.compare s s = Eq.
Proof.
  induction s as [|c s IH]; simpl; [reflexivity|].
  unfold Ascii.compare. rewrite N.compare_refl. exact IH.
Qed.

Lemma string_compare_lt_trans (a b c : string) :
  String.compare a b = Lt -> String.compare b c = Lt -> String.compare a c = Lt.
Proof.
  revert b c. induction a as [|ca a IH]; intros [|cb b] [|cc c]; simpl;
    try discriminate; try reflexivity.
  destruct (Ascii.compare ca cb) eqn:E1; try discriminate.
  - apply Ascii.compare_eq_iff in E1. subst cb.
    destruct (Ascii.compare ca cc); try discriminate; [apply IH|reflexivity].
  - intros _. destruct (Ascii.compare cb cc) eqn:E2; try discriminate.
    + apply Ascii.compare_eq_iff in E2. subst cc. rewrite E1. reflexivity.
    + intros _. unfold Ascii.compare in *.
      apply N.compare_lt_iff in E1. apply N.compare_lt_iff in E2.
      assert (H : (N_of_ascii ca < N_of_ascii cc)%N) by (eapply N.lt_trans; eassumption).
      apply N.compare_lt_iff in H. rewrite H. reflexivity.
Qed.

Lemma key_lt_irrefl (a : string * string) : ~ key_lt a a.
Proof. unfold key_lt, String.ltb. rewrite string_compare_refl. discriminate. Qed.

Lemma key_lt_trans (a b c : string * string) : key_lt a b -> key_lt b c -> key_lt a c.
Proof.
  unfold key_lt, String.ltb.
  destruct (String.compare (fst a) (fst b)) eqn:E1; try discriminate.
  destruct (String.compare (fst b) (fst c)) eqn:E2; try discriminate.
  rewrite (string_compare_lt_trans _ _ _ E1 E2). reflexivity.
Qed.

Lemma key_not_lt (a b : string * string) :
  String.ltb (fst a) (fst b) = false -> fst a <> fst b -> key_lt b a.
Proof.
  unfold key_lt, String.ltb. intros H Hne.
  rewrite String.compare_antisym.
  destruct (String.compare (fst a) (fst b)) eqn:E; try discriminate.
  - apply String.compare_eq_iff in E. contradiction.
  - reflexivity.
Qed.

Lemma insert_by_key_perm (kv : string * string) (l : list (string * string)) :
  Permutation (insert_by_key kv l) (kv :: l).
Proof.
  induction l as [|kv' l IH]; simpl; [apply Permutation_refl|].
  destruct (String.ltb (fst kv) (fst kv')); [apply Permutation_refl|].
  apply Permutation_trans with (kv' :: kv :: l).
  - apply perm_skip. exact IH.
  - apply perm_swap.
Qed.

Lemma insert_by_key_sorted (kv : string * string) (l : list (string * string)) :
  Sorted key_lt l -> ~ In (fst kv) (map fst l) -> Sorted key_lt (insert_by_key kv l).
Proof.
  induction l as [|kv' l IH]; simpl; intros Hs Hnew.
  - constructor; constructor.
  - destruct (String.ltb (fst kv) (fst kv')) eqn:E.
    + constructor; [exact Hs|]. constructor. exact E.
    + inversion Hs as [|? ? Hs' Hhd]; subst.
      assert (Hlt : key_lt kv' kv) by (apply key_not_lt; [exact E|]; intros He; auto).
      constructor; [apply IH; [exact Hs'|tauto]|].
      destruct l as [|kv'' l]; simpl.
      * constructor. exact Hlt.
      * destruct (String.ltb (fst kv) (fst kv'')); constructor; [exact Hlt|].
        inversion Hhd. assumption.
Qed.

Lemma sort_fold_perm (l acc : list (string * string)) :
  Permutation (fold_left (fun a kv => insert_by_key kv a) l acc) (l ++ acc).
Proof.
  revert acc. induction l as [|kv l IH]; intros acc; simpl; [apply Permutation_refl|].
  apply Permutation_trans with (l ++ insert_by_key kv acc)%list; [apply IH|].
  apply Permutation_trans with (l ++ kv :: acc)%list.
  - apply Permutation_app_head. apply insert_by_key_perm.
  - apply Permutation_sym. apply Permutation_middle.
Qed.

Lemma sort_fold_sorted (l acc : list (string * string)) :
  Sorted key_lt acc -> NoDup (map fst (l ++ acc)) ->
  Sorted key_lt (fold_left (fun a kv => insert_by_key kv a) l acc).
Proof.
  revert acc. induction l as [|kv l IH]; intros acc Hs Hnd; simpl; [exact Hs|].
  simpl in Hnd. inversion Hnd as [|? ? Hnotin Hnd']; subst.
  apply IH.
  - apply insert_by_key_sorted; [exact Hs|].
    intros Hin. apply Hnotin. rewrite map_app. apply in_or_app. right. exact Hin.
  - apply (Permutation_NoDup (l := map fst (kv :: l ++ acc))); [|exact Hnd].
    apply Permutation_map.
    apply Permutation_trans with (l ++ kv :: acc)%list; [apply Permutation_middle|].
    apply Permutation_app_head. apply Permutation_sym. apply insert_by_key_perm.
Qed.

Lemma sort_by_key_sorted (l : list (string * string)) :
  NoDup (map fst l) -> Sorted key_lt (sort_by_key l) /\ Permutation (sort_by_key l) l.
Proof.
  intros Hnd. unfold sort_by_key. split.
  - apply sort_fold_sorted; [constructor|]. rewrite app_nil_r. exact Hnd.
  - rewrite <- (app_nil_r l) at 2. apply sort_fold_perm.
Qed.

Lemma sorted_perm_unique (l1 l2 : list (string * string)) :
  Sorted key_lt l1 -> Sorted key_lt l2 -> Permutation l1 l2 -> l1 = l2.
Proof.
  intros H1 H2 Hp.
  assert (Hso : StrictOrder key_lt).
  { split.
    - intros a. apply key_lt_irrefl.
    - intros a b c. apply key_lt_trans. }
  assert (Heq : eqlistA eq l1 l2).
  { apply (SortA_equivlistA_eqlistA eq_equivalence Hso); try assumption.
    - intros a a' -> b b' ->. reflexivity.
    - intros x. rewrite !InA_alt. split; intros [y [-> Hy]]; exists y;
        (split; [reflexivity|]).
      + apply (Permutation_in _ Hp). exact Hy.
      + apply (Permutation_in _ (Permutation_sym Hp)). exact Hy. }
  clear -Heq. induction Heq as [|x y l l' Hxy _ IH]; [reflexivity|]. congruence.
Qed.

Section CanonicalJson.
Context {R : Runtime}.

Lemma json_dumps_obj_sorted (indent : option nat) (level : nat)
      (f : string * json) (fields : list (string * json)) :
  json_dumps_at true indent level (JObj (f :: fields))
  = "{" ++ newline_indent indent (S level)
    ++ join (item_separator indent ++ newline_indent indent (S level))
            (map (fun kv => json_string (fst kv) ++ ": " ++ snd kv)
                 (sort_by_key
                    (map (fun kv => (fst kv, json_dumps_at true indent (S level) (snd kv)))
                         (f :: fields))))
    ++ newline_indent indent level ++ "}".
Proof. reflexivity. Qed.

(** X18. With [sort_keys=True] the text of a dict does not depend on the
    order in which its keys were inserted: two objects holding the same
    items, under pairwise different keys, serialise to the same text (and so
    hash to the same digest). *)
Theorem json_dumps_sorted_order_free (indent : option nat) (f1 f2 : list (string * json)) :
  NoDup (map fst f1) -> Permutation f1 f2 ->
  json_dumps true indent (JObj f1) = json_dumps true indent (JObj f2)
  /\ sha256_hexdigest (json_dumps true indent (JObj f1))
     = sha256_hexdigest (json_dumps true indent (JObj f2)).
Proof.
  intros Hnd Hp.
  assert (Heq : json_dumps true indent (JObj f1) = json_dumps true indent (JObj f2)).
  { unfold json_dumps. destruct f1 as [|a f1].
    - apply Permutation_nil in Hp. subst f2. reflexivity.
    - destruct f2 as [|b f2]; [apply Permutation_sym, Permutation_nil in Hp; discriminate|].
      rewrite !json_dumps_obj_sorted.
      set (g := fun kv : string * json =>
                  (fst kv, json_dumps_at true indent 1 (snd kv))).
      assert (Hk : forall l, map fst (map g l) = map fst l)
        by (intros l; rewrite map_map; reflexivity).
      assert (Hs : sort_by_key (map g (a :: f1)) = sort_by_key (map g (b :: f2))).
      { apply sorted_perm_unique.
        - apply sort_by_key_sorted. rewrite Hk. exact Hnd.
        - apply sort_by_key_sorted. rewrite Hk.
          apply (Permutation_NoDup (l := map fst (a :: f1))); [|exact Hnd].
          apply Permutation_map. exact Hp.
        - apply Permutation_trans with (map g (a :: f1));
            [apply sort_by_key_sorted; rewrite Hk; exact Hnd|].
          apply Permutation_trans with (map g (b :: f2));
            [apply Permutation_map; exact Hp|].
          apply Permutation_sym. apply sort_by_key_sorted. rewrite Hk.
          apply (Permutation_NoDup (l := map fst (a :: f1))); [|exact Hnd].
          apply Permutation_map. exact Hp. }
      rewrite Hs. reflexivity. }
  split; [exact Heq|]. rewrite Heq. reflexivity.
Qed.
End CanonicalJson.

Lemma json_dumps_sorted_order_free_witness :
  NoDup (map fst fields_ab) /\ Permutation fields_ab fields_ba
  /\ @json_dumps plain_runtime true None (JObj fields_ab)
     = @json_dumps plain_runtime true None (JObj fields_ba).
Proof.
  assert (H1 : NoDup (map fst fields_ab)).
  { constructor; [simpl; intros [H|[]]; discriminate|].
    constructor; [simpl; tauto|constructor]. }
  assert (H2 : Permutation fields_ab fields_ba) by apply perm_swap.
  split; [exact H1|]. split; [exact H2|].
  exact (proj1 (@json_dumps_sorted_order_free plain_runtime None fields_ab fields_ba
                  H1 H2)).
Defined.

(** ** The simulation *)

Section SimulationSteps.
Variables (T1 T2 a b c : string).
Hypothesis HT : T2 <> T1.
Hypotheses (Hab : a <> b) (Hac : a <> c) (Hbc : b <> c).

Lemma eqb_T21 : String.eqb T2 T1 = false.
Proof. apply String.eqb_neq. exact HT. Qed.

Lemma eqb_T12 : String.eqb T1 T2 = false.
Proof. apply String.eqb_neq. congruence. Qed.

Lemma sim_select2 (req : Q) :
  select_inputs a req (sim_store1 T1 a b) [] 0
  = if Qle_bool req (0 + (11999 # 10000))
    then ([{| in_txid := T1; in_vout := 1%Z |}], 0 + (11999 # 10000))
    else ([{| in_txid := T1; in_vout := 1%Z |}], 0 + (11999 # 10000)).
Proof.
  unfold sim_store1. cbn [select_inputs utxo_address utxo_amount utxo_txid utxo_vout app].
  rewrite String.eqb_refl.
  replace (String.eqb b a) with false by (symmetry; apply String.eqb_neq; congruence).
  destruct (Qle_bool req (0 + (11999 # 10000))); reflexivity.
Qed.

Lemma sim_verify2 (ts : Q) (sg : option string) (self : Blockchain) :
  utxos self = (sim_store1 T1 a b) ->
  verify_tx self
    {| tx_inputs := [{| in_txid := T1; in_vout := 1%Z |}];
       tx_outputs := [{| out_address := b; out_amount := 4 # 10 |};
                      {| out_address := c; out_amount := 2 # 10 |};
                      {| out_address := a; out_amount := 5998 # 10000 |}];
       tx_timestamp := ts; tx_txid := T2; tx_signature := sg |} = true.
Proof.
  intros Hu. unfold verify_tx. rewrite Hu. unfold sim_store1.
  cbn [tx_inputs tx_outputs resolve_inputs dict_get input_ref in_txid in_vout].
  unfold ref_eqb. cbn [fst snd]. rewrite String.eqb_refl. cbn [Z.eqb andb].
  reflexivity.
Qed.

Lemma sim_apply2 (ts : Q) (sg : option string) :
  apply_tx_utxos (sim_store1 T1 a b)
    {| tx_inputs := [{| in_txid := T1; in_vout := 1%Z |}];
       tx_outputs := [{| out_address := b; out_amount := 4 # 10 |};
                      {| out_address := c; out_amount := 2 # 10 |};
                      {| out_address := a; out_amount := 5998 # 10000 |}];
       tx_timestamp := ts; tx_txid := T2; tx_signature := sg |}
  = sim_store2 T1 T2 a b c.
Proof.
  unfold apply_tx_utxos, sim_store1, sim_store2.
  cbn [tx_inputs tx_outputs tx_txid fold_left].
  unfold spend_input, dict_mem, dict_set, dict_mem, ref_eqb, input_ref.
  repeat (progress (cbn; unfold dict_set, dict_mem, ref_eqb;
                    rewrite ?String.eqb_refl, ?eqb_T21)).
  reflexivity.
Qed.

Lemma sim_select3 :
  select_inputs a (py_sum [1]) (sim_store2 T1 T2 a b c) [] 0
  = ([{| in_txid := T2; in_vout := 2%Z |}], 0 + (5998 # 10000)).
Proof.
  unfold sim_store2. cbn [select_inputs utxo_address utxo_amount utxo_txid utxo_vout app].
  rewrite String.eqb_refl.
  replace (String.eqb b a) with false by (symmetry; apply String.eqb_neq; congruence).
  replace (String.eqb c a) with false by (symmetry; apply String.eqb_neq; congruence).
  reflexivity.
Qed.

Lemma sim_verify3 (ts : Q) (txid : string) (sg : option string) (self : Blockchain) :
  utxos self = (sim_store2 T1 T2 a b c) ->
  verify_tx self
    {| tx_inputs := [{| in_txid := T2; in_vout := 2%Z |}];
       tx_outputs := [{| out_address := b; out_amount := 1 |}];
       tx_timestamp := ts; tx_txid := txid; tx_signature := sg |} = false.
Proof.
  intros Hu. unfold verify_tx. rewrite Hu. unfold sim_store2.
  cbn [tx_inputs tx_outputs resolve_inputs]. unfold input_ref, ref_eqb.
  cbn [dict_get fst snd in_txid in_vout].
  rewrite ?String.eqb_refl, ?eqb_T21. cbn [Z.eqb andb]. reflexivity.
Qed.

Lemma sim_balances (self : Blockchain) (wa wb wc : Wallet) :
  utxos self = (sim_store2 T1 T2 a b c) -> address wa = a -> address wb = b -> address wc = c ->
  balance self wa == 5998 # 10000 /\ balance self wb == 7 # 10 /\ balance self wc == 2 # 10.
Proof.
  intros Hu Ha Hb Hc. unfold balance. rewrite Hu, Ha, Hb, Hc. unfold sim_store2.
  cbn [filter snd utxo_address].
  rewrite !String.eqb_refl.
  replace (String.eqb b a) with false by (symmetry; apply String.eqb_neq; congruence).
  replace (String.eqb c a) with false by (symmetry; apply String.eqb_neq; congruence).
  replace (String.eqb a b) with false by (symmetry; apply String.eqb_neq; congruence).
  replace (String.eqb c b) with false by (symmetry; apply String.eqb_neq; congruence).
  replace (String.eqb a c) with false by (symmetry; apply String.eqb_neq; congruence).
  replace (String.eqb b c) with false by (symmetry; apply String.eqb_neq; congruence).
  cbn [map snd utxo_amount]. repeat split; reflexivity.
Qed.
End SimulationSteps.

Section SimulationRun.
Context {R : Runtime}.
Variables (alice bob carol miner : Wallet) (t1 t2 t3 : Q).
Hypothesis Hab : address alice <> address bob.
Hypothesis Hac : address alice <> address carol.
Hypothesis Hbc : address bob <> address carol.

Lemma sim_change2 :
  change_outputs alice (0 + (11999 # 10000)) (py_sum [4 # 10; 2 # 10])
  = [{| out_address := address alice; out_amount := 5998 # 10000 |}].
Proof. reflexivity. Qed.

Lemma sim_change3 :
  change_outputs alice (0 + (5998 # 10000)) (py_sum [1]) = [].
Proof. reflexivity. Qed.

Lemma sim_create2 (self : Blockchain) :
  utxos self
  = sim_store1 (tx_txid (scenario_tx alice bob t1)) (address alice) (address bob) ->
  create_tx alice self [(address bob, 4 # 10); (address carol, 2 # 10)] t2
  = Some (simulation_tx2 alice bob carol t1 t2).
Proof.
  intros Hu. unfold create_tx. rewrite Hu. cbn [map snd].
  rewrite (sim_select2 _ _ _ Hab).
  change (Qle_bool (py_sum [4 # 10; 2 # 10]) (0 + (11999 # 10000))) with true.
  cbv beta iota zeta.
  change (Qeq_bool (0 + (11999 # 10000)) 0) with false. cbv beta iota zeta.
  rewrite sim_change2. reflexivity.
Qed.

Lemma sim_create3 (self : Blockchain) (T1 T2 : string) :
  utxos self = sim_store2 T1 T2 (address alice) (address bob) (address carol) ->
  exists txid sg,
    create_tx alice self [(address bob, 1)] t3
    = Some {| tx_inputs := [{| in_txid := T2; in_vout := 2%Z |}];
              tx_outputs := [{| out_address := address bob; out_amount := 1 |}];
              tx_timestamp := t3; tx_txid := txid; tx_signature := sg |}.
Proof.
  intros Hu. unfold create_tx. rewrite Hu. cbn [map snd].
  rewrite (sim_select3 _ _ _ _ _ Hab Hac).
  change (Qeq_bool (0 + (5998 # 10000)) 0) with false. cbv beta iota zeta.
  rewrite sim_change3. eexists. eexists. reflexivity.
Qed.

Lemma sim_apply2_tx :
  tx_txid (simulation_tx2 alice bob carol t1 t2) <> tx_txid (scenario_tx alice bob t1) ->
  apply_tx_utxos
    (sim_store1 (tx_txid (scenario_tx alice bob t1)) (address alice) (address bob))
    (simulation_tx2 alice bob carol t1 t2)
  = sim_store2 (tx_txid (scenario_tx alice bob t1))
               (tx_txid (simulation_tx2 alice bob carol t1 t2))
               (address alice) (address bob) (address carol).
Proof.
  intros HT.
  exact (sim_apply2 (tx_txid (scenario_tx alice bob t1))
           (tx_txid (simulation_tx2 alice bob carol t1 t2))
           (address alice) (address bob) (address carol) HT t2
           (tx_signature (simulation_tx2 alice bob carol t1 t2))).
Qed.

Lemma sim_block1 (now1 : string) (fuel : nat) (chain2 : Blockchain) :
  mine_block fuel
    (snd (add_tx (genesis (new_blockchain 3) alice (15 # 10)) (scenario_tx alice bob t1)))
    miner now1 = Some chain2 ->
  utxos chain2
  = sim_store1 (tx_txid (scenario_tx alice bob t1)) (address alice) (address bob)
  /\ mempool chain2 = []
  /\ List.length (chain chain2) = 1%nat.
Proof.
  rewrite (scenario_add_tx alice bob 3 t1). cbn [snd]. intros M1.
  destruct (mine_block_inv _ _ _ _ _ M1) as (n1 & h1 & _ & ->).
  cbn [chain utxos mempool fold_left].
  rewrite (scenario_applied alice bob t1). repeat split.
Qed.

Lemma sim_verify2_tx (self : Blockchain) :
  utxos self
  = sim_store1 (tx_txid (scenario_tx alice bob t1)) (address alice) (address bob) ->
  verify_tx self (simulation_tx2 alice bob carol t1 t2) = true.
Proof.
  intros Hu.
  exact (sim_verify2 (tx_txid (scenario_tx alice bob t1))
           (tx_txid (simulation_tx2 alice bob carol t1 t2))
           (address alice) (address bob) (address carol) t2
           (tx_signature (simulation_tx2 alice bob carol t1 t2)) self Hu).
Qed.

Lemma sim_block2 (now2 : string) (fuel : nat) (chain2 chain4 : Blockchain) :
  tx_txid (simulation_tx2 alice bob carol t1 t2) <> tx_txid (scenario_tx alice bob t1) ->
  utxos chain2
  = sim_store1 (tx_txid (scenario_tx alice bob t1)) (address alice) (address bob) ->
  mempool chain2 = [] ->
  List.length (chain chain2) = 1%nat ->
  mine_block fuel (snd (add_tx chain2 (simulation_tx2 alice bob carol t1 t2)))
             miner now2 = Some chain4 ->
  utxos chain4
  = sim_store2 (tx_txid (scenario_tx alice bob t1))
               (tx_txid (simulation_tx2 alice bob carol t1 t2))
               (address alice) (address bob) (address carol)
  /\ mempool chain4 = []
  /\ List.length (chain chain4) = 2%nat.
Proof.
  intros HT Hu2 Hm2 Hl2. unfold add_tx. rewrite (sim_verify2_tx chain2 Hu2).
  cbn [snd]. intros M2.
  destruct (mine_block_inv _ _ _ _ _ M2) as (n2 & h2 & _ & ->).
  cbn [chain utxos mempool]. rewrite Hm2, Hu2. cbn [app fold_left].
  rewrite (sim_apply2_tx HT). split; [reflexivity|]. split; [reflexivity|].
  rewrite length_app, Hl2. reflexivity.
Qed.

Lemma sim_rejected (chain4 : Blockchain) (T1 T2 : string) :
  T2 <> T1 ->
  utxos chain4 = sim_store2 T1 T2 (address alice) (address bob) (address carol) ->
  exists tx3, create_tx alice chain4 [(address bob, 1)] t3 = Some tx3
              /\ add_tx chain4 tx3 = (false, chain4).
Proof.
  intros HT Hu4. destruct (sim_create3 chain4 T1 T2 Hu4) as (txid3 & sg3 & Hc).
  eexists. split; [exact Hc|]. unfold add_tx.
  rewrite (sim_verify3 T1 T2 (address alice) (address bob) (address carol) HT
             t3 txid3 sg3 chain4 Hu4).
  reflexivity.
Qed.

(** X19. The simulation, when it runs to its end with alice, bob and carol
    at three different addresses and two transactions of different txids,
    reports the third transaction as rejected and leaves two blocks, an
    empty mempool and the balances 0.5998 for alice, 0.7 for bob and 0.2 for
    carol; the exported files are those of that ledger. *)
Theorem simulation_outcome (now1 now2 : string) (fuel : nat) (fs : FileSystem)
        (final : Blockchain) (detected : bool) (fs' : FileSystem) :
  tx_txid (simulation_tx2 alice bob carol t1 t2) <> tx_txid (scenario_tx alice bob t1) ->
  simulation alice bob carol miner t1 t2 t3 now1 now2 fuel fs
  = Some (final, detected, fs') ->
  detected = true
  /\ List.length (chain final) = 2%nat
  /\ mempool final = []
  /\ balance final alice == 5998 # 10000
  /\ balance final bob == 7 # 10
  /\ balance final carol == 2 # 10
  /\ read_file "chain.json" fs' = Some (chain_json final)
  /\ read_file "utxos.csv" fs' = Some (utxos_csv final).
Proof.
  intros HT. unfold simulation.
  rewrite (scenario_create alice bob 3 t1).
  destruct (mine_block fuel _ miner now1) as [chain2|] eqn:M1; [|discriminate].
  destruct (sim_block1 now1 fuel chain2 M1) as (Hu2 & Hm2 & Hl2).
  rewrite (sim_create2 chain2 Hu2).
  destruct (mine_block fuel _ miner now2) as [chain4|] eqn:M2; [|discriminate].
  destruct (sim_block2 now2 fuel chain2 chain4 HT Hu2 Hm2 Hl2 M2) as (Hu4 & Hm4 & Hl4).
  destruct (sim_rejected chain4 _ _ HT Hu4) as (tx3 & -> & ->).
  unfold export_data. cbn [fst snd negb].
  intros H. injection H as <- <- <-.
  split; [reflexivity|]. split; [exact Hl4|]. split; [exact Hm4|].
  destruct (sim_balances _ _ _ _ _ Hab Hac Hbc chain4 alice bob carol Hu4
              eq_refl eq_refl eq_refl) as (Ba & Bb & Bc).
  split; [exact Ba|]. split; [exact Bb|]. split; [exact Bc|].
  unfold read_file, write_file. split.
  - rewrite (dict_get_set_other _ String.eqb_eq) by discriminate.
    apply (dict_get_set_same _ String.eqb_eq).
  - apply (dict_get_set_same _ String.eqb_eq).
Qed.
End SimulationRun.

Lemma simulation_outcome_witness :
  address alice <> address bob /\ address alice <> address carol
  /\ address bob <> address carol
  /\ @simulation plain_runtime alice bob carol miner
       (17000000005 # 10) (17000000015 # 10) (17000000025 # 10)
       "2024-01-01T00:00:00.003384" "2024-01-01T00:00:00.000890" 5 []
     = Some (simulation_final, true, simulation_files)
  /\ List.length (chain simulation_final) = 2%nat
  /\ balance simulation_final alice == 5998 # 10000
  /\ balance simulation_final bob == 7 # 10
  /\ balance simulation_final carol == 2 # 10.
Proof.
  assert (Hab : address alice <> address bob) by (vm_compute; discriminate).
  assert (Hac : address alice <> address carol) by (vm_compute; discriminate).
  assert (Hbc : address bob <> address carol) by (vm_compute; discriminate).
  assert (HT : tx_txid (@simulation_tx2 plain_runtime alice bob carol
                          (17000000005 # 10) (17000000015 # 10))
               <> tx_txid (@scenario_tx plain_runtime alice bob (17000000005 # 10)))
    by (vm_compute; discriminate).
  assert (Hrun : @simulation plain_runtime alice bob carol miner
                   (17000000005 # 10) (17000000015 # 10) (17000000025 # 10)
                   "2024-01-01T00:00:00.003384" "2024-01-01T00:00:00.000890" 5 []
                 = Some (simulation_final, true, simulation_files))
    by (vm_compute; reflexivity).
  split; [exact Hab|]. split; [exact Hac|]. split; [exact Hbc|]. split; [exact Hrun|].
  destruct (@simulation_outcome plain_runtime alice bob carol miner
              (17000000005 # 10) (17000000015 # 10) (17000000025 # 10)
              Hab Hac Hbc
              "2024-01-01T00:00:00.003384" "2024-01-01T00:00:00.000890" 5%nat []
              simulation_final true simulation_files HT Hrun)
    as (_ & Hlen & _ & Ba & Bb & Bc & _).
  split; [exact Hlen|]. split; [exact Ba|]. split; [exact Bb|]. exact Bc.
Defined.
